(** * pydm/widgets/designer_settings.py: the basic settings editor

    A shallow embedding of the property-editing core of PyDM's designer
    settings dialog: the two table editors ([DictionaryTable],
    [StringListTable]), the typed property helpers built on
    [_PropertyHelper], property discovery and dispatch
    ([get_qt_properties], [_create_helper_widgets]) and the save / cancel
    protocol of [BasicSettingsEditor].

    Conventions of the embedding.
    - A Python [str] is a [string]; each [ascii] stands for the code point
      of the same number, so the model covers the code points below 256.
      Whitespace ([str.strip]) is Python's for that range.  Case mapping
      ([str.capitalize]) is given for the code points below 128 only and
      the statements that depend on it say so.
    - A Python [dict] is an association list in insertion order; assigning
      to a key that is present replaces the value in place.
    - Code that can raise returns a [result]; only exceptions derived from
      [Exception] are modelled (the ones [except Exception] catches).
    - The logger is a list of records, newest last. *)

From Stdlib Require Import ZArith Lia Ascii String.
From stdpp Require Import base option list strings gmap sorting pretty.

Open Scope string_scope.
Open Scope list_scope.
Open Scope nat_scope.

(** ** Python strings *)

Module Py.

(** [str.isspace] on one character, for the code points below 256. *)
Definition isspace (c : ascii) : bool :=
  let n := nat_of_ascii c in
  ((9 <=? n) && (n <=? 13)) || ((28 <=? n) && (n <=? 32))
  || (n =? 133) || (n =? 160).

Fixpoint lstrip (s : string) : string :=
  match s with
  | String c r => if isspace c then lstrip r else s
  | EmptyString => EmptyString
  end.

Fixpoint rstrip (s : string) : string :=
  match s with
  | String c r =>
      match rstrip r with
      | EmptyString => if isspace c then EmptyString else String c EmptyString
      | r' => String c r'
      end
  | EmptyString => EmptyString
  end.

(** [s.strip()] *)
Definition strip (s : string) : string := rstrip (lstrip s).

(** The regular-expression class [A-Z]. *)
Definition is_AZ (c : ascii) : bool :=
  let n := nat_of_ascii c in (65 <=? n) && (n <=? 90).

Definition is_az (c : ascii) : bool :=
  let n := nat_of_ascii c in (97 <=? n) && (n <=? 122).

Definition is_ascii (c : ascii) : bool := nat_of_ascii c <? 128.

(** [str.lower] and [str.upper] on one character below 128. *)
Definition lower_char (c : ascii) : ascii :=
  if is_AZ c then ascii_of_nat (nat_of_ascii c + 32) else c.

Definition upper_char (c : ascii) : ascii :=
  if is_az c then ascii_of_nat (nat_of_ascii c - 32) else c.

Fixpoint lower (s : string) : string :=
  match s with
  | String c r => String (lower_char c) (lower r)
  | EmptyString => EmptyString
  end.

(** [s.capitalize()]: first character upper-cased, the rest lower-cased. *)
Definition capitalize (s : string) : string :=
  match s with
  | String c r => String (upper_char c) (lower r)
  | EmptyString => EmptyString
  end.

(** The regular-expression atom [.] (no DOTALL): anything but a newline. *)
Definition dot (c : ascii) : bool := negb (nat_of_ascii c =? 10).

(** [re.sub("(.)([A-Z])", r"\1 \2", s)]: the string is scanned from the
    left; at each position a match takes two characters, is replaced by
    the two with a space between them, and the scan resumes after the
    match, so matches do not overlap. *)
Fixpoint sub_dot_AZ (s : string) : string :=
  match s with
  | String c r =>
      match r with
      | String d r' =>
          if dot c && is_AZ d
          then String c (String " " (String d (sub_dot_AZ r')))
          else String c (sub_dot_AZ r)
      | EmptyString => s
      end
  | EmptyString => EmptyString
  end.

End Py.

(** ** [get_helper_label_text] *)

Definition get_helper_label_text (attr : string) : string :=
  let spaced := Py.sub_dot_AZ attr in
  Py.capitalize (Py.strip spaced).

(** The derivation as the specification words it: a space before each
    capital letter that is not the first character, then the remainder
    after the first character lower-cased (the first character is
    upper-cased, as in the specification's example). *)
Fixpoint space_before_capitals (s : string) : string :=
  match s with
  | String c r =>
      if Py.is_AZ c
      then String " " (String c (space_before_capitals r))
      else String c (space_before_capitals r)
  | EmptyString => EmptyString
  end.

Definition label_spec (attr : string) : string :=
  match attr with
  | String c r => String (Py.upper_char c) (Py.lower (space_before_capitals r))
  | EmptyString => EmptyString
  end.

(** No capital letter directly follows a capital letter or a newline. *)
Fixpoint capitals_apart (s : string) : bool :=
  match s with
  | String c r =>
      match r with
      | String d _ => negb (Py.is_AZ d && (Py.is_AZ c || negb (Py.dot c)))
      | EmptyString => true
      end && capitals_apart r
  | EmptyString => true
  end.

Fixpoint all_ascii (s : string) : bool :=
  match s with
  | String c r => Py.is_ascii c && all_ascii r
  | EmptyString => true
  end.

Fixpoint last_char (s : string) : option ascii :=
  match s with
  | String c r => match last_char r with Some d => Some d | None => Some c end
  | EmptyString => None
  end.

(** ** Python values and exceptions *)

(** The values a property of the target holds or an editor saves. *)
Inductive pyatom :=
  | PyNone
  | PyBool (b : bool)
  | PyInt (z : Z)
  | PyStr (s : string).

Inductive pyval :=
  | Atom (a : pyatom)
  | PyList (l : list pyatom).

Coercion Atom : pyatom >-> pyval.

Inductive exn :=
  | TypeError
  | ValueError
  | RuntimeError
  | AttributeError                (* [AttributeError] and its subclasses *)
  | OtherError (name : string).   (* any other class, by name *)

Inductive result (A : Type) :=
  | Ok (a : A)
  | Raise (e : exn).
Arguments Ok {A} a.
Arguments Raise {A} e.

Definition py_truthy (v : pyval) : bool :=
  match v with
  | Atom PyNone => false
  | Atom (PyBool b) => b
  | Atom (PyInt z) => negb (z =? 0)%Z
  | Atom (PyStr s) => negb (String.eqb s "")
  | PyList l => negb (length l =? 0)
  end.

(** [a or b] *)
Definition py_or (a b : pyval) : pyval := if py_truthy a then a else b.

(** [str(v)] on the atoms. *)
Definition py_str (a : pyatom) : string :=
  match a with
  | PyNone => "None"
  | PyBool true => "True"
  | PyBool false => "False"
  | PyInt z => pretty z
  | PyStr s => s
  end.

Fixpoint chars (s : string) : list pyatom :=
  match s with
  | String c r => PyStr (String c EmptyString) :: chars r
  | EmptyString => []
  end.

(** [len(v)] and iteration over [v]: defined on lists and strings, a
    [TypeError] on the other values. *)
Definition py_iter (v : pyval) : result (list pyatom) :=
  match v with
  | PyList l => Ok l
  | Atom (PyStr s) => Ok (chars s)
  | _ => Raise TypeError
  end.

Definition enumerate {A} (l : list A) : list (nat * A) :=
  zip (seq 0 (length l)) l.

(** A [dict] with string keys and values, in insertion order. *)
Abbreviation pydict := (list (string * string)) (only parsing).

(** [d[k] = v] *)
Fixpoint dict_setitem (k v : string) (d : pydict) : pydict :=
  match d with
  | [] => [(k, v)]
  | (k', v') :: d' =>
      if String.eqb k' k then (k', v) :: d' else (k', v') :: dict_setitem k v d'
  end.

(** [d.get(k)] *)
Fixpoint dict_get (k : string) (d : pydict) : option string :=
  match d with
  | [] => None
  | (k', v') :: d' => if String.eqb k' k then Some v' else dict_get k d'
  end.

(** [{k: v for k, v in pairs}] *)
Definition dict_of_pairs (pairs : list (string * string)) : pydict :=
  fold_left (fun d kv => dict_setitem kv.1 kv.2 d) pairs [].

(** ** [QTableWidget]

    The cell contents of a Qt table: a list of rows, each row giving the
    item of a column if there is one.  A [QTableWidgetItem] is its text.
    Layout calls ([setMinimumSize], [setHorizontalHeaderLabels],
    [resizeColumnsToContents], [resizeRowsToContents]) do not touch the
    cells and are left out. *)

Abbreviation QTableWidgetItem := string (only parsing).

Record QTableWidget := mkTable {
  columnCount : nat;
  rows : list (nat -> option QTableWidgetItem);
}.

Module Qt.

Definition new_table : QTableWidget := mkTable 0 [].

Definition rowCount (t : QTableWidget) : nat := length (rows t).

Definition setColumnCount (n : nat) (t : QTableWidget) : QTableWidget :=
  mkTable n (map (fun row c => if c <? n then row c else None) (rows t)).

(** Shrinking drops the rows at the end with their items; growing adds
    rows without items. *)
Definition setRowCount (n : nat) (t : QTableWidget) : QTableWidget :=
  mkTable (columnCount t) (resize n (fun _ => None) (rows t)).

(** [t.item(r, c)]: [None] outside the table or where no item was set. *)
Definition item (r c : nat) (t : QTableWidget) : option QTableWidgetItem :=
  if c <? columnCount t then rows t !! r ≫= (fun row => row c) else None.

(** [t.setItem(r, c, it)]: ignored outside the table. *)
Definition setItem (r c : nat) (it : QTableWidgetItem) (t : QTableWidget)
  : QTableWidget :=
  if c <? columnCount t
  then mkTable (columnCount t)
         (alter (fun row c' => if c' =? c then Some it else row c') r (rows t))
  else t.

Definition removeRow (r : nat) (t : QTableWidget) : QTableWidget :=
  mkTable (columnCount t) (delete r (rows t)).

End Qt.

(** ** [DictionaryTable] *)

Module DictionaryTable.

(** The [dictionary] property, getter. *)
Definition dictionary (self : QTableWidget) : pydict :=
  let items :=
    map (fun row => (Qt.item row 0 self, Qt.item row 1 self))
        (seq 0 (Qt.rowCount self)) in
  let key_value_pairs :=
    map (fun kv : option string * option string =>
           (default "" kv.1, default "" kv.2)) items in
  dict_of_pairs (map (fun kv => (Py.strip kv.1, kv.2)) key_value_pairs).

(** The [dictionary] property, setter; [None] stands for Python's [None]. *)
Definition set_dictionary (dct : option pydict) (self : QTableWidget)
  : QTableWidget :=
  let dct := default [] dct in
  let self := Qt.setRowCount (length dct) self in
  fold_left
    (fun self rkv =>
       let '(row, (key, value)) := rkv in
       Qt.setItem row 1 value (Qt.setItem row 0 key self))
    (enumerate dct) self.

Definition __init__ (dictionary : option pydict) : QTableWidget :=
  let self := Qt.new_table in
  let self := Qt.setColumnCount 2 self in
  set_dictionary dictionary self.

(** The context-menu actions on the cell or row under the pointer. *)
Definition paste (r c : nat) (clipboard_text : string) (self : QTableWidget)
  : QTableWidget :=
  match Qt.item r c self with
  | Some _ => Qt.setItem r c clipboard_text self
  | None => self
  end.

Definition delete_row (r : nat) (self : QTableWidget) : QTableWidget :=
  Qt.removeRow r self.

Definition add_row (self : QTableWidget) : QTableWidget :=
  let row := Qt.rowCount self in
  let self := Qt.setRowCount (row + 1) self in
  Qt.setItem row 1 "" (Qt.setItem row 0 "" self).

End DictionaryTable.

(** ** [StringListTable] *)

Module StringListTable.

(** The [values] property, getter. *)
Definition values (self : QTableWidget) : list string :=
  let items := map (fun row => Qt.item row 0 self) (seq 0 (Qt.rowCount self)) in
  omap (fun item : option string => Py.strip <$> item) items.

(** The [values] property, setter.  [len] is the only step that can
    raise, and it comes before the first change to the table. *)
Definition set_values (values : pyval) (self : QTableWidget)
  : result QTableWidget :=
  let values := py_or values (PyList []) in
  match py_iter values with
  | Raise e => Raise e
  | Ok elems =>
      let self := Qt.setRowCount (length elems) self in
      Ok (fold_left
            (fun self rv => Qt.setItem rv.1 0 (py_str rv.2) self)
            (enumerate elems) self)
  end.

(** The constructor evaluates the [values] getter and drops the result;
    its [values] argument is not used. *)
Definition __init__ (values : pyval) : QTableWidget :=
  let self := Qt.new_table in
  let self := Qt.setColumnCount 1 self in
  let _ := StringListTable.values self in
  self.

Definition paste (r c : nat) (clipboard_text : string) (self : QTableWidget)
  : QTableWidget :=
  match Qt.item r c self with
  | Some _ => Qt.setItem r c clipboard_text self
  | None => self
  end.

Definition delete_row (r : nat) (self : QTableWidget) : QTableWidget :=
  Qt.removeRow r self.

Definition add_row (self : QTableWidget) : QTableWidget :=
  let row := Qt.rowCount self in
  let self := Qt.setRowCount (row + 1) self in
  Qt.setItem row 0 "" self.

End StringListTable.

(** [set value(s); get value()] on the string-list editor. *)
Definition values_roundtrip (s : pyval) (self : QTableWidget)
  : result (list string) :=
  match StringListTable.set_values s self with
  | Ok self' => Ok (StringListTable.values self')
  | Raise e => Raise e
  end.

(** The same round trip as the specification words it: the elements
    stringified and trimmed, those that come out empty dropped. *)
Definition values_roundtrip_spec (s : list pyatom) : list string :=
  filter (fun x => x <> "") (map (fun v => Py.strip (py_str v)) s).

(** ** The target object

    The widget being edited, seen through the reflection the dialog
    uses: the Qt meta-object of its class ([staticMetaObject]), the
    attributes of its class ([getattr(type(widget), name, None)], with
    the [type] of a property object) and the attributes of the instance.
    A property accessor of the target may raise; which ones do is part
    of the target. *)

Inductive prop_type :=
  | Tstr | Tint | Tbool          (* the type objects [str], [int], [bool] *)
  | Tobject (name : string)      (* any other type object, such as [float] *)
  | Tname (name : string).       (* a type given by name, such as ["QStringList"] *)

Global Instance prop_type_eq_dec : EqDecision prop_type.
Proof. solve_decision. Defined.

Record QMetaProperty := {
  name : string;
  isDesignable : bool;
}.

(** A class attribute that is not [None]; [attr_type] is its [type]
    attribute, if it has one. *)
Record ClassAttribute := {
  attr_type : option prop_type;
}.

Record WidgetClass := {
  staticMetaObject : list QMetaProperty;
  class_attributes : gmap string ClassAttribute;
}.

Record PyDMWidget := {
  objectName : string;
  widget_type : WidgetClass;
  attributes : gmap string pyval;
  getattr_raises : string -> option exn;
  setattr_raises : string -> pyval -> option exn;
  (** [QDesignerFormWindowInterface.findFormWindow(widget)] finds a form,
      and what its cursor's [setProperty] raises. *)
  formWindow : bool;
  setProperty_raises : string -> pyval -> option exn;
}.

Definition set_attribute (name : string) (value : pyval) (w : PyDMWidget)
  : PyDMWidget :=
  {| objectName := objectName w;
     widget_type := widget_type w;
     attributes := <[name := value]> (attributes w);
     getattr_raises := getattr_raises w;
     setattr_raises := setattr_raises w;
     formWindow := formWindow w;
     setProperty_raises := setProperty_raises w |}.

(** ** The world: the target and the logger

    The dialog and every helper hold a reference to the same target
    object, so there is one target in the state, shared by all. *)

Inductive helper_cls :=
  | _PropertyHelper
  | PropertyRuleEditor
  | PropertyCheckbox
  | PropertyLineEdit
  | PropertyIntSpinBox
  | PropertyMacroTable
  | PropertyStringList.

Global Instance helper_cls_eq_dec : EqDecision helper_cls.
Proof. solve_decision. Defined.

Inductive LogRecord :=
  (* logger.info("Updating %s.%s = %s", ...) *)
  | Updating (object_name property_name : string) (value : pyval)
  (* logger.exception("Failed to set helper widget %s state from %s=%s", ...) *)
  | FailedToSetState (cls : helper_cls) (property_name : string) (value : pyval)
  (* logger.exception("Failed to parse macro string: %r", value) *)
  | FailedToParse (value : pyval)
  (* logger.exception("Failed to save settings for %s.%s = %r", ...) *)
  | FailedToSave (object_name property_name : string) (value : pyval).

Record World := {
  widget : PyDMWidget;
  log : list LogRecord;
}.

(** Computations that read and write the world and may raise; what was
    written before an exception stays written. *)
Definition M (A : Type) : Type := World -> result A * World.

Definition ret {A} (a : A) : M A := fun w => (Ok a, w).

Definition bind {A B} (m : M A) (k : A -> M B) : M B :=
  fun w =>
    match m w with
    | (Ok a, w') => k a w'
    | (Raise e, w') => (Raise e, w')
    end.

Definition lift {A} (r : result A) : M A := fun w => (r, w).

(** [try: m] with the outcome handed to what follows. *)
Definition attempt {A} (m : M A) : M (result A) :=
  fun w => let '(r, w') := m w in (Ok r, w').

Notation "x <- m ;; k" := (bind m (fun x => k))
  (at level 100, m at next level, k at level 200, right associativity).
Notation "m ;; k" := (bind m (fun _ => k))
  (at level 100, k at level 200, right associativity).

Fixpoint for_each {A} (l : list A) (body : A -> M unit) : M unit :=
  match l with
  | [] => ret tt
  | x :: l' => body x ;; for_each l' body
  end.

Definition logger (r : LogRecord) : M unit :=
  fun w => (Ok tt, {| widget := widget w; log := log w ++ [r] |}).

Definition the_widget : M PyDMWidget := fun w => (Ok (widget w), w).

(** [getattr(widget, name, None)]: the default stands in when the
    attribute is missing and also when its accessor raises
    [AttributeError]; any other exception of the accessor leaves
    [getattr]. *)
Definition getattr (name : string) : M pyval :=
  fun w =>
    match getattr_raises (widget w) name with
    | Some AttributeError => (Ok (Atom PyNone), w)
    | Some e => (Raise e, w)
    | None => (Ok (default (Atom PyNone) (attributes (widget w) !! name)), w)
    end.

(** [setattr(widget, name, value)] *)
Definition setattr (name : string) (value : pyval) : M unit :=
  fun w =>
    match setattr_raises (widget w) name value with
    | Some e => (Raise e, w)
    | None =>
        (Ok tt, {| widget := set_attribute name value (widget w); log := log w |})
    end.

(** [formWindow.cursor().setProperty(name, value)] *)
Definition cursor_setProperty (name : string) (value : pyval) : M unit :=
  fun w =>
    match setProperty_raises (widget w) name value with
    | Some e => (Raise e, w)
    | None =>
        (Ok tt, {| widget := set_attribute name value (widget w); log := log w |})
    end.

(** ** [update_property_for_widget] *)

Definition update_property_for_widget (name : string) (value : pyval) : M unit :=
  widget <- the_widget ;;
  logger (Updating (objectName widget) name value) ;;
  if formWindow widget
  then cursor_setProperty name value
  else setattr name value.

(** ** The helper widgets

    A helper is a property name and the Qt control its class adds to
    [_PropertyHelper], with the control's editable state. *)

Inductive control :=
  | Object                           (* _PropertyHelper by itself *)
  | QPushButton                      (* PropertyRuleEditor *)
  | QCheckBox (checked : bool)       (* PropertyCheckbox *)
  | QLineEdit (text : string)        (* PropertyLineEdit *)
  | QSpinBox (value : Z)             (* PropertyIntSpinBox *)
  | MacroTable (table : QTableWidget)   (* PropertyMacroTable, a DictionaryTable *)
  | StringList (table : QTableWidget).  (* PropertyStringList, a StringListTable *)

Record Helper := {
  _property_name : string;
  helper_control : control;
}.

(** The control as the Qt base class constructs it ([super().__init__]). *)
Definition new_control (cls : helper_cls) : control :=
  match cls with
  | _PropertyHelper => Object
  | PropertyRuleEditor => QPushButton
  | PropertyCheckbox => QCheckBox false
  | PropertyLineEdit => QLineEdit ""
  | PropertyIntSpinBox => QSpinBox 0
  | PropertyMacroTable => MacroTable (DictionaryTable.__init__ None)
  | PropertyStringList => StringList (StringListTable.__init__ PyNone)
  end.

Definition class_of (c : control) : helper_cls :=
  match c with
  | Object => _PropertyHelper
  | QPushButton => PropertyRuleEditor
  | QCheckBox _ => PropertyCheckbox
  | QLineEdit _ => PropertyLineEdit
  | QSpinBox _ => PropertyIntSpinBox
  | MacroTable _ => PropertyMacroTable
  | StringList _ => PropertyStringList
  end.

(** [QSpinBox.setValue]: the value is kept within the default range. *)
Definition spin_clamp (z : Z) : Z := Z.max 0 (Z.min 99 z).

Section helpers.

(** The macro codec lives outside this file: [parse_macro_string] from
    [pydm.utilities.macro] and [json.dumps]. *)
Variable parse_macro_string : pyval -> result pydict.
Variable json_dumps : pydict -> string.

(** [set_value_from_widget], by class.  Every step that can raise comes
    before the first change to the control, so a raise leaves the
    control as it was. *)
Definition set_value_from_widget (self : control) (value : pyval) : M control :=
  match self with
  | Object | QPushButton => ret self
  | QCheckBox _ => ret (QCheckBox (py_truthy value))
  | QLineEdit _ =>
      match py_or value (PyStr "") with
      | Atom (PyStr s) => ret (QLineEdit s)
      | _ => lift (Raise TypeError)
      end
  | QSpinBox _ =>
      match value with
      | Atom (PyInt z) => ret (QSpinBox (spin_clamp z))
      | Atom (PyBool b) => ret (QSpinBox (if b then 1 else 0)%Z)
      | _ => lift (Raise TypeError)
      end
  | MacroTable t =>
      match parse_macro_string (py_or value (PyStr "")) with
      | Raise _ => logger (FailedToParse value) ;; ret self
      | Ok macros => ret (MacroTable (DictionaryTable.set_dictionary (Some macros) t))
      end
  | StringList t =>
      t' <- lift (StringListTable.set_values value t) ;;
      ret (StringList t')
  end.

(** [_PropertyHelper.__init__] under the constructor of class [cls]. *)
Definition new_helper (cls : helper_cls) (property_name : string) : M Helper :=
  let self := new_control cls in
  read <- attempt (getattr property_name) ;;
  match read with
  | Raise _ =>
      logger (FailedToSetState cls property_name PyNone) ;;
      ret {| _property_name := property_name; helper_control := self |}
  | Ok value =>
      loaded <- attempt (set_value_from_widget self value) ;;
      match loaded with
      | Raise _ =>
          logger (FailedToSetState cls property_name value) ;;
          ret {| _property_name := property_name; helper_control := self |}
      | Ok self' =>
          ret {| _property_name := property_name; helper_control := self' |}
      end
  end.

(** The [saved_value] property, by class. *)
Definition saved_value (self : Helper) : result pyval :=
  match helper_control self with
  | Object => Raise TypeError                       (* [raise None] *)
  | QPushButton => Ok (Atom PyNone)
  | QCheckBox checked => Ok (Atom (PyBool checked))
  | QLineEdit text => Ok (Atom (PyStr (Py.strip text)))
  | QSpinBox value => Ok (Atom (PyInt value))
  | MacroTable t => Ok (Atom (PyStr (json_dumps (DictionaryTable.dictionary t))))
  | StringList t => Ok (PyList (map PyStr (StringListTable.values t)))
  end.

(** [_PropertyHelper.save_settings] *)
Definition save_settings (self : Helper) : M unit :=
  value <- lift (saved_value self) ;;
  match value with
  | Atom PyNone => ret tt
  | _ => update_property_for_widget (_property_name self) value
  end.

End helpers.

(** ** Discovery and dispatch *)

(** [get_qt_properties] *)
Definition get_qt_properties (cls : WidgetClass) : list string :=
  map name (filter (fun prop => isDesignable prop = true) (staticMetaObject cls)).

(** [s1 <= s2] on Python strings: lexicographic by code point. *)
Fixpoint str_leb (s1 s2 : string) : bool :=
  match s1, s2 with
  | EmptyString, _ => true
  | String _ _, EmptyString => false
  | String a r1, String b r2 =>
      if nat_of_ascii a <? nat_of_ascii b then true
      else if nat_of_ascii a =? nat_of_ascii b then str_leb r1 r2
      else false
  end.

Definition str_le (s1 s2 : string) : Prop := str_leb s1 s2 = true.

Global Instance str_le_dec : RelDecision str_le.
Proof. intros s1 s2. unfold str_le. apply _. Defined.

(** [sorted(names)] *)
Definition sorted (names : list string) : list string := merge_sort str_le names.

Definition _common_attributes_ : list (string * helper_cls) :=
  [ ("channel", PropertyLineEdit);
    ("display", PropertyLineEdit);
    ("macros", PropertyMacroTable);
    ("filenames", PropertyStringList);
    ("rules", PropertyRuleEditor) ].

Definition _type_to_widget_ : list (prop_type * helper_cls) :=
  [ (Tstr, PropertyLineEdit);
    (Tint, PropertyIntSpinBox);
    (Tbool, PropertyCheckbox);
    (Tname "QStringList", PropertyStringList) ].

(** [d.get(k)] on the two tables. *)
Fixpoint table_get {K V} `{EqDecision K} (k : K) (d : list (K * V)) : option V :=
  match d with
  | [] => None
  | (k', v) :: d' => if decide (k' = k) then Some v else table_get k d'
  end.

(** [attr in self._common_attributes_] *)
Definition is_common (attr : string) : bool :=
  bool_decide (is_Some (table_get attr _common_attributes_)).

Definition other_attrs (cls : WidgetClass) : list string :=
  filter (fun attr => is_common attr = false) (sorted (get_qt_properties cls)).

(** The names the loop of [_create_helper_widgets] goes through. *)
Definition loop_attrs (cls : WidgetClass) : list string :=
  map fst _common_attributes_ ++ other_attrs cls.

(** [self._common_attributes_.get(attr, self._type_to_widget_.get(prop_type, None))];
    a property object without a [type] has [prop_type = None], which is
    not a key of the type table. *)
Definition select_helper_cls (attr : string) (prop_type : option prop_type)
  : option helper_cls :=
  let by_type := prop_type ≫= (fun ty => table_get ty _type_to_widget_) in
  match table_get attr _common_attributes_ with
  | Some cls => Some cls
  | None => by_type
  end.

(** The body of the loop up to the choice of a helper class: [None] when
    the class of the target has no such attribute or no table has an
    entry. *)
Definition helper_cls_for (cls : WidgetClass) (attr : string) : option helper_cls :=
  match class_attributes cls !! attr with
  | None => None                              (* [continue] *)
  | Some prop => select_helper_cls attr (attr_type prop)
  end.

(** ** [BasicSettingsEditor] *)

(** A [QDialog] is open until [accept()] or [close()]; closing a dialog
    rejects it. *)
Inductive dialog_state := Open | Accepted | Rejected.

Record BasicSettingsEditor := {
  property_widgets : list Helper;
  (** the labels of the rows of [settings_form], in order *)
  settings_form : list string;
  state : dialog_state;
}.

Definition set_state (st : dialog_state) (self : BasicSettingsEditor)
  : BasicSettingsEditor :=
  {| property_widgets := property_widgets self;
     settings_form := settings_form self;
     state := st |}.

(** What the user can do between the opening of the dialog and Save or
    Cancel: edit a control, use the context menu of a table, or press
    the button of the rule editor.  [RulesEditor] is not part of this
    file; it is opened over the target itself and what it writes there
    is carried by the action. *)
Inductive user_action :=
  | SetChecked (i : nat) (b : bool)
  | SetText (i : nat) (s : string)
  | SetValue (i : nat) (z : Z)
  | Paste (i r c : nat) (s : string)
  | AddRow (i : nat)
  | DeleteRow (i r : nat)
  | OpenRulesEditor (i : nat) (rules_editor : PyDMWidget -> PyDMWidget).

Definition edit_control (a : user_action) (c : control) : control :=
  match a, c with
  | SetChecked _ b, QCheckBox _ => QCheckBox b
  | SetText _ s, QLineEdit _ => QLineEdit s
  | SetValue _ z, QSpinBox _ => QSpinBox (spin_clamp z)
  | Paste _ r col s, MacroTable t => MacroTable (DictionaryTable.paste r col s t)
  | Paste _ r col s, StringList t => StringList (StringListTable.paste r col s t)
  | AddRow _, MacroTable t => MacroTable (DictionaryTable.add_row t)
  | AddRow _, StringList t => StringList (StringListTable.add_row t)
  | DeleteRow _ r, MacroTable t => MacroTable (DictionaryTable.delete_row r t)
  | DeleteRow _ r, StringList t => StringList (StringListTable.delete_row r t)
  | _, _ => c
  end.

Definition action_index (a : user_action) : nat :=
  match a with
  | SetChecked i _ | SetText i _ | SetValue i _ | Paste i _ _ _
  | AddRow i | DeleteRow i _ | OpenRulesEditor i _ => i
  end.

(** The classes of the helpers of a dialog, in order. *)
Definition helper_classes (self : BasicSettingsEditor) : list helper_cls :=
  map (fun h => class_of (helper_control h)) (property_widgets self).

(** Whether the action presses the button of a rule editor of the dialog. *)
Definition opens_rules_editor (self : BasicSettingsEditor) (a : user_action)
  : bool :=
  match a, helper_classes self !! action_index a with
  | OpenRulesEditor _ _, Some PropertyRuleEditor => true
  | _, _ => false
  end.

(** [PropertyRuleEditor._open_rules_editor]: the sub-editor runs on the
    target of the dialog. *)
Definition _open_rules_editor (rules_editor : PyDMWidget -> PyDMWidget) : M unit :=
  fun w => (Ok tt, {| widget := rules_editor (widget w); log := log w |}).

Definition user_step (a : user_action) (self : BasicSettingsEditor)
  : M BasicSettingsEditor :=
  match a with
  | OpenRulesEditor i rules_editor =>
      if opens_rules_editor self a
      then _open_rules_editor rules_editor ;; ret self
      else ret self
  | _ =>
      ret {| property_widgets :=
               alter (fun h => {| _property_name := _property_name h;
                                  helper_control := edit_control a (helper_control h) |})
                     (action_index a) (property_widgets self);
             settings_form := settings_form self;
             state := state self |}
  end.

Fixpoint user_steps (acts : list user_action) (self : BasicSettingsEditor)
  : M BasicSettingsEditor :=
  match acts with
  | [] => ret self
  | a :: acts' => self' <- user_step a self ;; user_steps acts' self'
  end.

Section dialog.

Variable parse_macro_string : pyval -> result pydict.
Variable json_dumps : pydict -> string.

(** [_create_helper_widgets]: the helpers it yields, each with the label
    of its form row. *)
Fixpoint create_helpers (cls : WidgetClass) (attrs : list string)
  : M (list (string * Helper)) :=
  match attrs with
  | [] => ret []
  | attr :: attrs' =>
      match helper_cls_for cls attr with
      | None => create_helpers cls attrs'
      | Some helper_widget_cls =>
          helper_widget <- new_helper parse_macro_string helper_widget_cls attr ;;
          let label_text := get_helper_label_text attr in
          rest <- create_helpers cls attrs' ;;
          ret (("&" +:+ label_text, helper_widget) :: rest)
      end
  end.

Definition _create_helper_widgets : M (list (string * Helper)) :=
  widget <- the_widget ;;
  create_helpers (widget_type widget) (loop_attrs (widget_type widget)).

(** [BasicSettingsEditor.__init__] with [setup_ui], on the target of the
    world. *)
Definition __init__ : M BasicSettingsEditor :=
  rows <- _create_helper_widgets ;;
  ret {| property_widgets := map snd rows;
         settings_form := map fst rows;
         state := Open |}.

(** One turn of the loop of [save_changes].  The handler reads
    [helper.saved_value] again for its message. *)
Definition save_one (helper : Helper) : M unit :=
  saved <- attempt (save_settings json_dumps helper) ;;
  match saved with
  | Ok _ => ret tt
  | Raise _ =>
      widget <- the_widget ;;
      value <- lift (saved_value json_dumps helper) ;;
      logger (FailedToSave (objectName widget) (_property_name helper) value)
  end.

Definition save_changes (self : BasicSettingsEditor) : M BasicSettingsEditor :=
  for_each (property_widgets self) save_one ;;
  ret (set_state Accepted self).

Definition cancel_changes (self : BasicSettingsEditor) : M BasicSettingsEditor :=
  ret (set_state Rejected self).

(** A whole session that ends with Cancel. *)
Definition cancelled_session (acts : list user_action) : M BasicSettingsEditor :=
  self <- __init__ ;;
  self <- user_steps acts self ;;
  cancel_changes self.

(** A whole session that ends with Save. *)
Definition saved_session (acts : list user_action) : M BasicSettingsEditor :=
  self <- __init__ ;;
  self <- user_steps acts self ;;
  save_changes self.

End dialog.

(** ** Vocabulary of the statements *)

(** The target declares the property: its class has the attribute. *)
Definition declares (cls : WidgetClass) (attr : string) : bool :=
  bool_decide (is_Some (class_attributes cls !! attr)).

(** The helper class the type table gives for the declared type of a
    property, if any. *)
Definition type_editor (cls : WidgetClass) (attr : string) : option helper_cls :=
  match class_attributes cls !! attr with
  | Some {| attr_type := Some ty |} => table_get ty _type_to_widget_
  | _ => None
  end.

Definition well_known_names : list string :=
  ["channel"; "display"; "macros"; "filenames"; "rules"].

(** The editor order as the specification states it: the well-known
    names the target declares, then all the remaining designable
    properties, sorted. *)
Definition editor_order_spec (cls : WidgetClass) : list string :=
  filter (fun attr => declares cls attr = true) well_known_names
  ++ other_attrs cls.

(** The names of the helpers of a dialog, in order. *)
Definition editor_names (self : BasicSettingsEditor) : list string :=
  map _property_name (property_widgets self).

(** What raises when [update_property_for_widget] writes to the target. *)
Definition write_raises (target : PyDMWidget) : string -> pyval -> option exn :=
  if formWindow target then setProperty_raises target else setattr_raises target.

(** The world a computation ends in, and its outcome. *)
Definition final_world {A} (m : M A) (w : World) : World := (m w).2.
Definition outcome {A} (m : M A) (w : World) : result A := (m w).1.

(** The writes of the rule sub-editor among the actions of a session, on
    a dialog whose helpers are [self]'s. *)
Fixpoint rules_editor_writes (self : BasicSettingsEditor)
    (acts : list user_action) (target : PyDMWidget) : PyDMWidget :=
  match acts with
  | [] => target
  | a :: acts' =>
      rules_editor_writes self acts'
        (match a with
         | OpenRulesEditor _ rules_editor =>
             if opens_rules_editor self a then rules_editor target else target
         | _ => target
         end)
  end.

(** ** Targets and a codec for the worked examples *)

Definition designable (n : string) : QMetaProperty :=
  {| name := n; isDesignable := true |}.

Definition not_designable (n : string) : QMetaProperty :=
  {| name := n; isDesignable := false |}.

Definition property_of (ty : prop_type) : ClassAttribute :=
  {| attr_type := Some ty |}.

(** A target whose accessors never raise, outside a designer form. *)
Definition plain_widget (cls : WidgetClass) (attrs : gmap string pyval)
  : PyDMWidget :=
  {| objectName := "widget";
     widget_type := cls;
     attributes := attrs;
     getattr_raises := fun _ => None;
     setattr_raises := fun _ _ => None;
     formWindow := false;
     setProperty_raises := fun _ _ => None |}.

Definition world_of (target : PyDMWidget) : World :=
  {| widget := target; log := [] |}.

(** A codec that reads the empty macro string only, and writes a mapping
    as [k:v] joined by commas. *)
Definition sample_parse_macro_string (v : pyval) : result pydict :=
  match v with
  | Atom (PyStr EmptyString) => Ok []
  | _ => Raise ValueError
  end.

Definition sample_json_dumps (d : pydict) : string :=
  String.concat "," (map (fun kv => kv.1 +:+ ":" +:+ kv.2) d).

(** Designable properties zeta, channel, alpha, macros, all strings. *)
Definition zeta_class : WidgetClass :=
  {| staticMetaObject :=
       [designable "zeta"; designable "channel"; designable "alpha";
        designable "macros"];
     class_attributes :=
       list_to_map
         [("zeta", property_of Tstr); ("channel", property_of Tstr);
          ("alpha", property_of Tstr); ("macros", property_of Tstr)] |}.

(** Designable properties channel (a string) and step (a float). *)
Definition step_class : WidgetClass :=
  {| staticMetaObject := [designable "channel"; designable "step"];
     class_attributes :=
       list_to_map
         [("channel", property_of Tstr); ("step", property_of (Tobject "float"))] |}.

(** A rules property that is declared but not designable, as PyDM's
    widgets have it, and a designable channel. *)
Definition rules_class : WidgetClass :=
  {| staticMetaObject := [designable "channel"; not_designable "rules"];
     class_attributes :=
       list_to_map
         [("channel", property_of Tstr); ("rules", property_of Tstr)] |}.

(** A target of class [zeta_class] whose channel cannot be read and
    whose macros hold a string the sample codec does not read. *)
Definition unreadable_channel : PyDMWidget :=
  {| objectName := "widget";
     widget_type := zeta_class;
     attributes := {[ "macros" := Atom (PyStr "A=1") ]};
     getattr_raises :=
       fun n => if String.eqb n "channel" then Some RuntimeError else None;
     setattr_raises := fun _ _ => None;
     formWindow := false;
     setProperty_raises := fun _ _ => None |}.

(** A target of class [zeta_class] whose channel cannot be written. *)
Definition write_protected_channel : PyDMWidget :=
  {| objectName := "widget";
     widget_type := zeta_class;
     attributes := {[ "channel" := Atom (PyStr "ca://X") ]};
     getattr_raises := fun _ => None;
     setattr_raises :=
       fun n _ => if String.eqb n "channel" then Some RuntimeError else None;
     formWindow := false;
     setProperty_raises := fun _ _ => None |}.


(** Designable properties of every type of the type table, a float, and
    rules declared as an int. *)
Definition typed_class : WidgetClass :=
  {| staticMetaObject :=
       [designable "showUnits"; designable "precision"; designable "step";
        designable "text"; designable "paths"; designable "rules"];
     class_attributes :=
       list_to_map
         [("showUnits", property_of Tbool); ("precision", property_of Tint);
          ("step", property_of (Tobject "float")); ("text", property_of Tstr);
          ("paths", property_of (Tname "QStringList"));
          ("rules", property_of Tint)] |}.

(** ** The context menu of the tables

    [_context_menu] is the same in both tables but for [add_row].  The
    position of the pointer is the cell under it.  The clipboard belongs
    to [pydm.utilities]; the text it holds when the menu is built is an
    argument, and what Copy does to it is outside this file. *)

Inductive menu_entry :=
  | MenuCopy (text : string)
  | MenuPaste (clipboard_text : string)
  | MenuDeleteRow (row : nat)
  | MenuSeparator
  | MenuAddRow.

(** The text of an entry of the menu; the separator has none. *)
Definition menu_label (e : menu_entry) : option string :=
  match e with
  | MenuCopy text => Some ("&Copy: " +:+ text)
  | MenuPaste clipboard_text => Some ("&Paste: " +:+ clipboard_text)
  | MenuDeleteRow _ => Some "&Delete row..."
  | MenuSeparator => None
  | MenuAddRow => Some "&Add row..."
  end.

(** The entries of the menu built at cell [(r, c)]. *)
Definition _context_menu (r c : nat) (clipboard_text : string)
    (self : QTableWidget) : list menu_entry :=
  match Qt.item r c self with
  | Some text => [MenuCopy text; MenuPaste clipboard_text; MenuDeleteRow r]
  | None => []
  end ++ [MenuSeparator; MenuAddRow].

(** What choosing an entry of the menu built at [(r, c)] does to the
    table, [add_row] being that of the table's class. *)
Definition menu_triggered (add_row : QTableWidget -> QTableWidget)
    (r c : nat) (e : menu_entry) (self : QTableWidget) : QTableWidget :=
  match e with
  | MenuCopy _ => self
  | MenuPaste clipboard_text => Qt.setItem r c clipboard_text self
  | MenuDeleteRow row => Qt.removeRow row self
  | MenuSeparator => self
  | MenuAddRow => add_row self
  end.

(** ** More vocabulary *)

(** No capital letter A-Z in the string. *)
Fixpoint no_AZ (s : string) : bool :=
  match s with
  | String c r => negb (Py.is_AZ c) && no_AZ r
  | EmptyString => true
  end.

Definition first_char (s : string) : option ascii :=
  match s with
  | String c _ => Some c
  | EmptyString => None
  end.

(** Two states of the target that differ at most in the values of the
    attributes named in [names]. *)
Definition same_but (names : list string) (t t' : PyDMWidget) : Prop :=
  objectName t' = objectName t /\
  widget_type t' = widget_type t /\
  getattr_raises t' = getattr_raises t /\
  setattr_raises t' = setattr_raises t /\
  formWindow t' = formWindow t /\
  setProperty_raises t' = setProperty_raises t /\
  forall name, name ∉ names -> attributes t' !! name = attributes t !! name.

(** A class with the same attributes whose meta-object lists the
    properties in another order. *)
Definition with_meta_object (props : list QMetaProperty) (cls : WidgetClass)
  : WidgetClass :=
  {| staticMetaObject := props; class_attributes := class_attributes cls |}.

(** A target that holds filenames where a list is expected but an
    integer is found. *)
Definition filenames_class : WidgetClass :=
  {| staticMetaObject := [designable "filenames"];
     class_attributes := list_to_map [("filenames", property_of (Tname "QStringList"))] |}.

(* ================================================================== *)
(** * Properties *)
(* ================================================================== *)

Example strip_both_ends : Py.strip "  a b   " = "a b".
Proof. reflexivity. Qed.

Example strip_blank : Py.strip "    " = "".
Proof. reflexivity. Qed.

Example sub_run_of_capitals : Py.sub_dot_AZ "ABCD" = "A BC D".
Proof. reflexivity. Qed.

Example label_maxAlarmCount :
  get_helper_label_text "maxAlarmCount" = "Max alarm count".
Proof. reflexivity. Qed.

Example label_precisionFromPV :
  get_helper_label_text "precisionFromPV" = "Precision from pv".
Proof. reflexivity. Qed.

Section label_lemmas.

Lemma lstrip_length s : String.length (Py.lstrip s) <= String.length s.
Proof.
  induction s as [|c r IH]; simpl; [lia|].
  destruct (Py.isspace c); simpl; lia.
Qed.

Lemma rstrip_length s : String.length (Py.rstrip s) <= String.length s.
Proof.
  induction s as [|c r IH]; simpl; [lia|].
  destruct (Py.rstrip r); simpl in *; [destruct (Py.isspace c); simpl; lia | lia].
Qed.

Lemma lstrip_fixed s :
  String.length (Py.lstrip s) = String.length s -> Py.lstrip s = s.
Proof.
  destruct s as [|c r]; simpl; [done|].
  destruct (Py.isspace c); [|done].
  pose proof (lstrip_length r). lia.
Qed.

Lemma strip_fixed s :
  Py.strip s = s -> Py.lstrip s = s /\ Py.rstrip s = s.
Proof.
  unfold Py.strip. intros H.
  assert (Py.lstrip s = s) as Hl.
  { apply lstrip_fixed.
    pose proof (rstrip_length (Py.lstrip s)) as H1.
    pose proof (lstrip_length s) as H2.
    rewrite H in H1. lia. }
  by rewrite Hl in H.
Qed.

Lemma lstrip_head c r : Py.lstrip (String c r) = String c r -> Py.isspace c = false.
Proof.
  simpl. destruct (Py.isspace c); [|done].
  intros H. pose proof (lstrip_length r) as Hlen. rewrite H in Hlen.
  simpl in Hlen. lia.
Qed.

Lemma rstrip_last s :
  Py.rstrip s = s <-> (forall c, last_char s = Some c -> Py.isspace c = false).
Proof.
  induction s as [|c r IH]; simpl; [by split|].
  destruct r as [|d r'].
  - simpl. destruct (Py.isspace c) eqn:E; split; try done.
    + intros H. specialize (H c eq_refl). congruence.
    + intros _ x [= <-]. done.
  - assert (exists x, last_char (String d r') = Some x) as [x Hx].
    { simpl. destruct (last_char r'); eauto. }
    rewrite Hx. split.
    + intros H y [= <-]. apply IH; [|done].
      destruct (Py.rstrip (String d r')) eqn:E.
      * destruct (Py.isspace c); discriminate.
      * congruence.
    + intros H. assert (Py.rstrip (String d r') = String d r') as ->; [|done].
      apply IH. intros y Hy. apply H. congruence.
Qed.

Lemma last_char_spaced r : last_char (space_before_capitals r) = last_char r.
Proof.
  induction r as [|c r IH]; simpl; [done|].
  destruct (Py.is_AZ c); simpl; rewrite IH; [|done].
  by destruct (last_char r).
Qed.

(** On a name whose capitals are apart, the non-overlapping substitution
    reaches every capital but a leading one. *)
Lemma sub_dot_AZ_apart n : forall s,
  String.length s <= n -> capitals_apart s = true ->
  Py.sub_dot_AZ s =
    match s with
    | String c r => String c (space_before_capitals r)
    | EmptyString => EmptyString
    end.
Proof.
  induction n as [|n IH]; intros [|c r] Hlen Hs; simpl in *; try done; [lia|].
  destruct r as [|d r']; [done|].
  apply andb_true_iff in Hs as [Hcd Hr].
  destruct (Py.is_AZ d) eqn:Ed; simpl in Hcd.
  - apply negb_true_iff, orb_false_iff in Hcd as [Hc Hdot].
    apply negb_false_iff in Hdot. rewrite Hdot. simpl. rewrite Ed. do 3 f_equal.
    simpl in Hr. apply andb_true_iff in Hr as [Hde Hr'].
    rewrite IH; [|simpl in Hlen; lia|done].
    destruct r' as [|e r'']; [done|].
    rewrite Ed in Hde. simpl in Hde. rewrite andb_true_r in Hde.
    apply negb_true_iff in Hde. simpl. by rewrite Hde.
  - rewrite andb_false_r. f_equal.
    rewrite IH; [|simpl in *; lia|done].
    simpl. by rewrite Ed.
Qed.

End label_lemmas.

(** C9, as the code has it. For a property name of characters below 128,
    without whitespace at its ends, in which no capital letter directly
    follows a capital letter or a newline, the label is the name with a
    space before each capital letter after the first character, the
    first character upper-cased and the rest lower-cased. *)
Theorem label_text_capitals_apart (attr : string) :
  all_ascii attr = true ->
  Py.strip attr = attr ->
  capitals_apart attr = true ->
  get_helper_label_text attr = label_spec attr.
Proof.
  intros _ Hstrip Hapart. unfold get_helper_label_text.
  rewrite (sub_dot_AZ_apart (String.length attr)) by done.
  destruct attr as [|c r]; [done|].
  apply strip_fixed in Hstrip as [Hl Hr].
  apply lstrip_head in Hl.
  assert (Py.strip (String c (space_before_capitals r))
          = String c (space_before_capitals r)) as ->; [|done].
  unfold Py.strip. simpl Py.lstrip. rewrite Hl.
  apply rstrip_last. intros x Hx. apply (proj1 (rstrip_last _) Hr).
  simpl in *. by rewrite last_char_spaced in Hx.
Qed.

Lemma label_text_capitals_apart_witness :
  all_ascii "maxAlarmCount" = true /\
  Py.strip "maxAlarmCount" = "maxAlarmCount" /\
  capitals_apart "maxAlarmCount" = true /\
  get_helper_label_text "maxAlarmCount" = "Max alarm count".
Proof.
  split_and!; [reflexivity..|].
  rewrite (label_text_capitals_apart "maxAlarmCount" eq_refl eq_refl eq_refl).
  reflexivity.
Defined.

(** C9, as the specification states it, fails on a run of capitals: the
    substitution does not overlap, so the V of "precisionFromPV" gets no
    space. *)
Lemma label_text_run_of_capitals :
  get_helper_label_text "precisionFromPV" = "Precision from pv" /\
  label_spec "precisionFromPV" = "Precision from p v" /\
  get_helper_label_text "precisionFromPV" <> label_spec "precisionFromPV".
Proof. split_and!; [reflexivity | reflexivity | discriminate]. Qed.

(** ** The table editors *)

Section tables.

Implicit Types (t self : QTableWidget) (r c : nat).

Lemma columnCount_setRowCount n t :
  columnCount (Qt.setRowCount n t) = columnCount t.
Proof. done. Qed.

Lemma rowCount_setRowCount n t : Qt.rowCount (Qt.setRowCount n t) = n.
Proof. unfold Qt.rowCount, Qt.setRowCount. simpl. apply length_resize. Qed.

Lemma columnCount_setItem r c it t :
  columnCount (Qt.setItem r c it t) = columnCount t.
Proof. unfold Qt.setItem. by case_match. Qed.

Lemma rowCount_setItem r c it t :
  Qt.rowCount (Qt.setItem r c it t) = Qt.rowCount t.
Proof.
  unfold Qt.setItem, Qt.rowCount. case_match; [|done].
  simpl. apply length_alter.
Qed.

(** Reading a cell after a write. *)
Lemma item_setItem r c r' c' it t :
  Qt.item r c (Qt.setItem r' c' it t) =
    if decide (r = r' /\ c = c' /\ r' < Qt.rowCount t /\ c' < columnCount t)
    then Some it else Qt.item r c t.
Proof.
  unfold Qt.setItem, Qt.item, Qt.rowCount.
  destruct (c' <? columnCount t) eqn:Ec'.
  - apply Nat.ltb_lt in Ec'. simpl.
    destruct (c <? columnCount t) eqn:Ec.
    + destruct (decide (r = r')) as [->|Hr].
      * rewrite list_lookup_alter_eq.
        destruct (rows t !! r') as [row|] eqn:Er; simpl.
        -- apply lookup_lt_Some in Er as Hlt.
           destruct (Nat.eqb_spec c c') as [->|Hc].
           ++ by rewrite decide_True.
           ++ rewrite decide_False; [done | intros (_ & ? & _); congruence].
        -- apply lookup_ge_None in Er.
           rewrite decide_False; [done | lia].
      * rewrite list_lookup_alter_ne by done.
        rewrite decide_False; [done | intros (? & _); congruence].
    + apply Nat.ltb_ge in Ec.
      rewrite decide_False; [done | lia].
  - apply Nat.ltb_ge in Ec'.
    rewrite decide_False; [done | lia].
Qed.

(** A comprehension over [range(len(l))] read through the list. *)
Lemma map_range {A B} (g : nat -> B) (h : A -> B) (l : list A) :
  (forall r x, l !! r = Some x -> g r = h x) ->
  map g (seq 0 (length l)) = map h l.
Proof.
  intros Hg. apply list_eq. intros i.
  rewrite !list_lookup_fmap.
  destruct (l !! i) as [x|] eqn:Ei; simpl.
  - apply lookup_lt_Some in Ei as Hlt.
    rewrite lookup_seq_lt by done. simpl. f_equal. by apply Hg.
  - apply lookup_ge_None in Ei.
    by rewrite lookup_seq_ge.
Qed.

End tables.

Section fill_loops.

Implicit Types (t self : QTableWidget) (r c : nat).

(** The loop of [StringListTable.values]' setter, started at row [i]. *)
Lemma fill_column (l : list pyatom) : forall i t,
  let t' := fold_left (fun self rv => Qt.setItem rv.1 0 (py_str rv.2) self)
              (zip (seq i (length l)) l) t in
  columnCount t' = columnCount t /\ Qt.rowCount t' = Qt.rowCount t /\
  (0 < columnCount t -> i + length l <= Qt.rowCount t ->
   forall r,
     Qt.item r 0 t' =
       if decide (i <= r < i + length l)
       then py_str <$> l !! (r - i) else Qt.item r 0 t).
Proof.
  induction l as [|x l IH]; intros i t; simpl.
  - split_and!; [done..|]. intros _ _ r.
    rewrite decide_False; [done | lia].
  - specialize (IH (S i) (Qt.setItem i 0 (py_str x) t)).
    simpl in IH. destruct IH as (Hc & Hr & Hitem).
    rewrite columnCount_setItem in Hc. rewrite rowCount_setItem in Hr.
    split_and!; [done..|]. intros Hcol Hrows r.
    rewrite Hitem; [|by rewrite columnCount_setItem|rewrite rowCount_setItem; lia].
    rewrite item_setItem.
    repeat case_decide; try lia; try done.
    + replace (r - i) with (S (r - S i)) by lia. done.
    + destruct_and!. subst. by rewrite Nat.sub_diag.
Qed.

(** The loop of [DictionaryTable.dictionary]'s setter, started at row [i]. *)
Lemma fill_rows (m : pydict) : forall i t,
  let t' := fold_left
              (fun self rkv =>
                 let '(row, (key, value)) := rkv in
                 Qt.setItem row 1 value (Qt.setItem row 0 key self))
              (zip (seq i (length m)) m) t in
  columnCount t' = columnCount t /\ Qt.rowCount t' = Qt.rowCount t /\
  (columnCount t = 2 -> i + length m <= Qt.rowCount t ->
   forall r,
     Qt.item r 0 t' =
       (if decide (i <= r < i + length m)
        then fst <$> m !! (r - i) else Qt.item r 0 t) /\
     Qt.item r 1 t' =
       (if decide (i <= r < i + length m)
        then snd <$> m !! (r - i) else Qt.item r 1 t)).
Proof.
  induction m as [|[k v] m IH]; intros i t; simpl.
  - split_and!; [done..|]. intros _ _ r.
    rewrite !decide_False by lia. done.
  - specialize (IH (S i) (Qt.setItem i 1 v (Qt.setItem i 0 k t))).
    simpl in IH. destruct IH as (Hc & Hr & Hitem).
    rewrite !columnCount_setItem in Hc. rewrite !rowCount_setItem in Hr.
    split_and!; [done..|]. intros Hcol Hrows r.
    destruct (Hitem ltac:(by rewrite !columnCount_setItem)
                    ltac:(rewrite !rowCount_setItem; lia) r) as [H0 H1].
    rewrite H0, H1, !item_setItem, !rowCount_setItem, !columnCount_setItem.
    repeat case_decide; try lia; try done.
    + replace (r - i) with (S (r - S i)) by lia. done.
    + destruct_and!. subst. by rewrite Nat.sub_diag.
Qed.

End fill_loops.

Section dicts.

Lemma dict_get_setitem k k' v d :
  dict_get k (dict_setitem k' v d) =
    if String.eqb k' k then Some v else dict_get k d.
Proof.
  induction d as [|[k0 v0] d IH]; simpl.
  - done.
  - destruct (String.eqb_spec k0 k') as [->|Hne]; simpl.
    + by destruct (String.eqb k' k).
    + destruct (String.eqb_spec k0 k) as [->|Hne'].
      * destruct (String.eqb_spec k' k); [congruence | done].
      * done.
Qed.

Lemma dict_of_pairs_snoc l k v :
  dict_of_pairs (l ++ [(k, v)]) = dict_setitem k v (dict_of_pairs l).
Proof. unfold dict_of_pairs. by rewrite fold_left_app. Qed.

(** Looking a key up in a comprehension finds the last pair with it. *)
Lemma dict_get_of_pairs (f : string -> string) (l : pydict) k :
  dict_get k (dict_of_pairs (map (fun kv => (f kv.1, kv.2)) l)) =
    snd <$> last (filter (fun kv => f kv.1 = k) l).
Proof.
  induction l as [|[k0 v0] l IH] using rev_ind; [done|].
  rewrite filter_app, filter_cons, filter_nil.
  rewrite map_app. simpl. rewrite dict_of_pairs_snoc, dict_get_setitem.
  destruct (String.eqb_spec (f k0) k) as [->|Hne].
  - rewrite decide_True by done. by rewrite last_snoc.
  - rewrite decide_False by done. by rewrite app_nil_r.
Qed.

End dicts.

Example add_row_delete_row :
  DictionaryTable.dictionary
    (DictionaryTable.delete_row 0
       (DictionaryTable.add_row (DictionaryTable.__init__ None))) = [].
Proof. reflexivity. Qed.

Example add_row_blank_key :
  DictionaryTable.dictionary (DictionaryTable.add_row (DictionaryTable.__init__ None))
  = [("", "")].
Proof. reflexivity. Qed.

(** C3. On the map editor (a table of two columns), [set value(m)] and
    then [get value()] gives the mapping obtained by inserting
    [(strip k, v)] for each [(k, v)] of [m] in [m]'s iteration order; a
    key that comes again after trimming overwrites the earlier value, so
    a lookup finds the value of the last such entry; values come back as
    they were, untrimmed. *)
Theorem dictionary_roundtrip (m : pydict) (self : QTableWidget) :
  columnCount self = 2 ->
  let d := DictionaryTable.dictionary
             (DictionaryTable.set_dictionary (Some m) self) in
  d = dict_of_pairs (map (fun kv => (Py.strip kv.1, kv.2)) m) /\
  forall k, dict_get k d = snd <$> last (filter (fun kv => Py.strip kv.1 = k) m).
Proof.
  intros Hcol d.
  assert (d = dict_of_pairs (map (fun kv => (Py.strip kv.1, kv.2)) m)) as Hd.
  { subst d. unfold DictionaryTable.dictionary, DictionaryTable.set_dictionary.
    simpl. unfold enumerate.
    destruct (fill_rows m 0 (Qt.setRowCount (length m) self)) as (Hc & Hr & Hitem).
    simpl in Hc, Hr, Hitem. rewrite Hr, rowCount_setRowCount.
    f_equal. rewrite !map_map.
    apply map_range. intros r [k v] Hrow. simpl.
    destruct (Hitem Hcol ltac:(rewrite rowCount_setRowCount; lia) r) as [-> ->].
    apply lookup_lt_Some in Hrow as Hlt.
    rewrite !decide_True by lia. by rewrite !Nat.sub_0_r, !Hrow. }
  split; [done|]. intros k. rewrite Hd. apply dict_get_of_pairs.
Qed.

Lemma dictionary_roundtrip_witness :
  let m := [(" a ", "1"); ("b", " 2 "); ("a", "3")] in
  let self := DictionaryTable.__init__ None in
  columnCount self = 2 /\
  DictionaryTable.dictionary (DictionaryTable.set_dictionary (Some m) self)
  = [("a", "3"); ("b", " 2 ")].
Proof.
  intros m self. split; [reflexivity|].
  rewrite (proj1 (dictionary_roundtrip m self eq_refl)). reflexivity.
Defined.

(** C4, as the code has it. On the string-list editor (a table of one
    column), [set value(s)] and then [get value()] gives one string for
    each element of [s], in order: the element stringified and trimmed.
    An element that stringifies to an empty or whitespace-only string
    comes back as the empty string; it is not dropped. *)
Theorem values_roundtrip_keeps_all (s : list pyatom) (self : QTableWidget) :
  columnCount self = 1 ->
  values_roundtrip (PyList s) self = Ok (map (fun v => Py.strip (py_str v)) s).
Proof.
  intros Hcol. unfold values_roundtrip, StringListTable.set_values.
  assert (py_iter (py_or (PyList s) (PyList [])) = Ok s) as ->.
  { unfold py_or. simpl. by destruct s. }
  f_equal. unfold StringListTable.values, enumerate.
  destruct (fill_column s 0 (Qt.setRowCount (length s) self)) as (Hc & Hr & Hitem).
  simpl in Hc, Hr, Hitem. rewrite Hr, rowCount_setRowCount.
  rewrite (map_range _ (fun v => Some (py_str v)) s).
  - clear. induction s as [|x s IH]; [done|]. cbn. by f_equal.
  - intros r x Hx. rewrite Hitem; [|simpl; lia|rewrite rowCount_setRowCount; lia].
    apply lookup_lt_Some in Hx as Hlt.
    rewrite decide_True by lia. by rewrite Nat.sub_0_r, Hx.
Qed.

Lemma values_roundtrip_keeps_all_witness :
  let self := StringListTable.__init__ PyNone in
  columnCount self = 1 /\
  values_roundtrip (PyList [PyStr " x "; PyInt 12; PyStr ""]) self
  = Ok ["x"; "12"; ""].
Proof.
  intros self. split; [reflexivity|].
  rewrite (values_roundtrip_keeps_all _ self eq_refl). reflexivity.
Defined.

(** C4, as the specification states it, fails: the blank elements of
    ["a"; ""; "  "; "b"] are read back as empty strings, where the
    specification would drop them. *)
Lemma values_roundtrip_blank_kept :
  let s := [PyStr "a"; PyStr ""; PyStr "  "; PyStr "b"] in
  values_roundtrip (PyList s) (StringListTable.__init__ PyNone)
    = Ok ["a"; ""; ""; "b"] /\
  values_roundtrip_spec s = ["a"; "b"] /\
  values_roundtrip (PyList s) (StringListTable.__init__ PyNone)
    <> Ok (values_roundtrip_spec s).
Proof. split_and!; [reflexivity | reflexivity | discriminate]. Qed.

(** C10. The constructor of the string-list table does not use its
    [values] argument: whatever is passed, the new table has no rows and
    [get value()] is empty. *)
Theorem StringListTable_init_ignores_values (values : pyval) :
  Qt.rowCount (StringListTable.__init__ values) = 0 /\
  StringListTable.values (StringListTable.__init__ values) = [].
Proof. split; reflexivity. Qed.

(** ** Sorting of property names *)

Section order.

Global Instance str_le_total : Total str_le.
Proof.
  intros s1. unfold str_le.
  induction s1 as [|a r1 IH]; intros [|b r2]; simpl; auto.
  destruct (Nat.ltb_spec (nat_of_ascii a) (nat_of_ascii b)); [auto|].
  destruct (Nat.ltb_spec (nat_of_ascii b) (nat_of_ascii a)); [auto|].
  rewrite (proj2 (Nat.eqb_eq _ _)) by lia.
  rewrite (proj2 (Nat.eqb_eq _ _)) by lia.
  apply IH.
Qed.

Global Instance str_le_trans : Transitive str_le.
Proof.
  intros s1. unfold str_le.
  induction s1 as [|a r1 IH]; intros [|b r2] [|c r3]; simpl; try done.
  destruct (Nat.ltb_spec (nat_of_ascii a) (nat_of_ascii b)),
           (Nat.ltb_spec (nat_of_ascii b) (nat_of_ascii c)),
           (Nat.ltb_spec (nat_of_ascii a) (nat_of_ascii c));
    try done; try lia;
    destruct (Nat.eqb_spec (nat_of_ascii a) (nat_of_ascii b)),
             (Nat.eqb_spec (nat_of_ascii b) (nat_of_ascii c)),
             (Nat.eqb_spec (nat_of_ascii a) (nat_of_ascii c));
    try done; try lia.
  apply IH.
Qed.

(** [sorted] gives the names in ascending order, each as often as
    before. *)
Lemma sorted_spec names :
  StronglySorted str_le (sorted names) /\ sorted names ≡ₚ names.
Proof.
  split.
  - apply Sorted_StronglySorted; [apply _|]. apply Sorted_merge_sort, _.
  - apply merge_sort_Permutation.
Qed.

Lemma StronglySorted_filter {A} (R : relation A) (P : A -> Prop)
    `{!forall x, Decision (P x)} (l : list A) :
  StronglySorted R l -> StronglySorted R (filter P l).
Proof.
  induction 1 as [|x l Hl IH Hx]; [constructor|].
  rewrite filter_cons. case_decide; [|done].
  constructor; [done|].
  apply Forall_forall. intros y [_ Hy]%list_elem_of_filter.
  rewrite Forall_forall in Hx. by apply Hx.
Qed.

Lemma other_attrs_spec cls :
  StronglySorted str_le (other_attrs cls) /\
  other_attrs cls
    ≡ₚ filter (fun attr => is_common attr = false) (get_qt_properties cls).
Proof.
  unfold other_attrs. destruct (sorted_spec (get_qt_properties cls)) as [Hs Hp].
  split; [by apply StronglySorted_filter | by rewrite Hp].
Qed.

End order.

(** ** The helpers and the dialog *)

Lemma world_eta (w : World) : {| widget := widget w; log := log w ++ [] |} = w.
Proof. destruct w. simpl. by rewrite app_nil_r. Qed.

Ltac unfold_monad :=
  unfold bind, ret, lift, attempt, logger, the_widget, getattr, setattr,
    cursor_setProperty in *; simpl in *.

Section session.

Variable parse_macro_string : pyval -> result (list (string * string)).
Variable json_dumps : list (string * string) -> string.

(** Loading a value into a control only adds to the log, and keeps the
    class of the control. *)
Lemma set_value_from_widget_effect self value w :
  exists l',
    (set_value_from_widget parse_macro_string self value w).2
      = {| widget := widget w; log := log w ++ l' |} /\
    forall c, (set_value_from_widget parse_macro_string self value w).1 = Ok c ->
              class_of c = class_of self.
Proof.
  destruct self; simpl; unfold_monad;
    repeat case_match; simplify_eq/=;
    first [ exists []; rewrite world_eta; split; [done | by intros c [= <-] || done]
          | eexists [_]; split; [done | by intros c [= <-] || done] ].
Qed.

(** Reading a property changes nothing, and what is read depends on the
    target only. *)
Lemma getattr_target property_name w :
  getattr property_name w = (outcome (getattr property_name) w, w) /\
  forall lg,
    outcome (getattr property_name) {| widget := widget w; log := lg |}
      = outcome (getattr property_name) w.
Proof.
  unfold outcome, getattr. simpl.
  split; [|intros lg];
    by destruct (getattr_raises (widget w) property_name) as [[]|].
Qed.

(** What loading a value does depends on the target only: the same
    outcome and the same new log records whatever was logged before. *)
Lemma set_value_from_widget_target self value target :
  exists r l,
    forall lg,
      set_value_from_widget parse_macro_string self value
          {| widget := target; log := lg |}
        = (r, {| widget := target; log := lg ++ l |}).
Proof.
  destruct self; simpl; unfold_monad; repeat case_match;
    first [ by eexists _, [_]
          | eexists _, []; intros lg; by rewrite app_nil_r ].
Qed.

(** Constructing a helper never raises; it only reads the target. *)
Lemma new_helper_ok cls property_name w :
  exists h l',
    new_helper parse_macro_string cls property_name w
      = (Ok h, {| widget := widget w; log := log w ++ l' |}) /\
    _property_name h = property_name /\
    class_of (helper_control h) = cls.
Proof.
  unfold new_helper. unfold bind at 1. unfold attempt.
  destruct (getattr_target property_name w) as [-> _].
  destruct (outcome (getattr property_name) w) as [value|e].
  - destruct (set_value_from_widget_effect (new_control cls) value w)
      as (l' & Hw & Hcls).
    unfold_monad.
    destruct (set_value_from_widget _ _ _ w) as [[c|e] w'] eqn:E; simpl in *; subst w'.
    + eexists _, l'. split_and!; [done..|].
      simpl. rewrite (Hcls c eq_refl). by destruct cls.
    + eexists _, (l' ++ [_]). rewrite app_assoc. split_and!; [done..|].
      by destruct cls.
  - unfold_monad. eexists _, [_]. split_and!; [done..|]. by destruct cls.
Qed.

(** The helper that is constructed, and what constructing it logs,
    depend on the target only. *)
Lemma new_helper_target cls property_name target :
  exists h l,
    forall lg,
      new_helper parse_macro_string cls property_name
          {| widget := target; log := lg |}
        = (Ok h, {| widget := target; log := lg ++ l |}).
Proof.
  pose (w := {| widget := target; log := [] |}).
  destruct (getattr_target property_name w) as [_ Hout]. simpl in Hout.
  destruct (outcome (getattr property_name) w) as [value|e] eqn:Hw.
  - destruct (set_value_from_widget_target (new_control cls) value target)
      as ([c|e] & l & Hload).
    + eexists _, l. intros lg. unfold new_helper. unfold bind at 1. unfold attempt.
      destruct (getattr_target property_name {| widget := target; log := lg |})
        as [-> _].
      rewrite Hout. unfold bind at 1. rewrite Hload. done.
    + eexists _, (l ++ [_]). intros lg.
      unfold new_helper. unfold bind at 1. unfold attempt.
      destruct (getattr_target property_name {| widget := target; log := lg |})
        as [-> _].
      rewrite Hout. unfold bind at 1. rewrite Hload.
      unfold_monad. by rewrite app_assoc.
  - eexists _, [_]. intros lg. unfold new_helper. unfold bind at 1. unfold attempt.
    destruct (getattr_target property_name {| widget := target; log := lg |})
      as [-> _].
    rewrite Hout. by unfold_monad.
Qed.

(** The loop of [_create_helper_widgets]: one helper for each name that
    gets a helper class, in the order of the names; nothing raises and
    the target is only read. *)
Lemma create_helpers_ok cls attrs : forall w,
  exists rows l',
    create_helpers parse_macro_string cls attrs w
      = (Ok rows, {| widget := widget w; log := log w ++ l' |}) /\
    map (fun r => (_property_name r.2, class_of (helper_control r.2))) rows
      = omap (fun a => pair a <$> helper_cls_for cls a) attrs /\
    map fst rows
      = map (fun r => "&" +:+ get_helper_label_text (_property_name r.2)) rows.
Proof.
  induction attrs as [|attr attrs IH]; intros w; simpl.
  - exists [], []. by rewrite world_eta.
  - destruct (helper_cls_for cls attr) as [hc|] eqn:Hc; simpl; [|apply IH].
    destruct (new_helper_ok hc attr w) as (h & l1 & Hnew & Hname & Hcls).
    destruct (IH {| widget := widget w; log := log w ++ l1 |})
      as (rows & l2 & Hrows & Hmap & Hlabels).
    simpl in Hrows.
    exists (("&" +:+ get_helper_label_text attr, h) :: rows), (l1 ++ l2).
    unfold bind at 1. rewrite Hnew. unfold bind at 1. rewrite Hrows.
    unfold ret. rewrite app_assoc. simpl.
    split_and!; [done | by rewrite Hname, Hcls, Hmap | by rewrite Hname, Hlabels].
Qed.



(** The dialog always opens; its helpers are those of the names of the
    loop that get a helper class. *)
Lemma init_ok w :
  exists self l',
    __init__ parse_macro_string w
      = (Ok self, {| widget := widget w; log := log w ++ l' |}) /\
    state self = Open /\
    map (fun h => (_property_name h, class_of (helper_control h)))
        (property_widgets self)
      = omap (fun a => pair a <$> helper_cls_for (widget_type (widget w)) a)
             (loop_attrs (widget_type (widget w))).
Proof.
  unfold __init__, _create_helper_widgets, the_widget.
  destruct (create_helpers_ok (widget_type (widget w))
              (loop_attrs (widget_type (widget w))) w)
    as (rows & l' & Hrows & Hmap & _).
  eexists _, l'. unfold bind at 1. unfold bind at 1. rewrite Hrows.
  unfold ret. split_and!; [done..|].
  simpl. by rewrite map_map.
Qed.

Lemma omap_pair_names {B} (f : string -> option B) (l : list string) :
  map fst (omap (fun a => pair a <$> f a) l)
    = filter (fun a => is_Some (f a)) l.
Proof.
  induction l as [|a l IH]; [done|].
  destruct (f a) as [b|] eqn:E.
  - rewrite filter_cons_True by (rewrite E; eauto).
    cbn. rewrite E. cbn. by rewrite IH.
  - rewrite filter_cons_False by (rewrite E; by intros [? ?]).
    cbn. by rewrite E.
Qed.

Lemma init_names w :
  exists self l',
    __init__ parse_macro_string w
      = (Ok self, {| widget := widget w; log := log w ++ l' |}) /\
    state self = Open /\
    editor_names self
      = filter (fun a => is_Some (helper_cls_for (widget_type (widget w)) a))
               (loop_attrs (widget_type (widget w))).
Proof.
  destruct (init_ok w) as (self & l' & Hinit & Hopen & Hmap).
  exists self, l'. split_and!; [done..|].
  rewrite <- omap_pair_names, <- Hmap, map_map. done.
Qed.

End session.

(** ** Dispatch *)

Section dispatch.

Lemma is_common_spec attr : is_common attr = true <-> attr ∈ well_known_names.
Proof.
  unfold is_common, well_known_names. simpl.
  repeat case_decide; subst; rewrite bool_decide_eq_true;
    try (split; [intros _; set_solver | intros _; eauto]).
  split; [by intros [? ?]|]. intros Hin.
  repeat (apply elem_of_cons in Hin as [->|Hin]; [done|]).
  by apply elem_of_nil in Hin.
Qed.

Lemma is_common_false attr : is_common attr = false <-> attr ∉ well_known_names.
Proof. rewrite <- is_common_spec. by destruct (is_common attr). Qed.

Lemma table_get_common attr :
  attr ∈ well_known_names -> is_Some (table_get attr _common_attributes_).
Proof. intros H%is_common_spec. unfold is_common in H. by apply bool_decide_eq_true in H. Qed.

Lemma table_get_not_common attr :
  attr ∉ well_known_names -> table_get attr _common_attributes_ = None.
Proof.
  intros H%is_common_false. unfold is_common in H.
  apply bool_decide_eq_false in H.
  destruct (table_get attr _common_attributes_); [|done].
  destruct H. eauto.
Qed.

(** A well-known name gets a helper exactly when the target declares it. *)
Lemma helper_cls_for_common cls attr :
  attr ∈ well_known_names ->
  is_Some (helper_cls_for cls attr) <-> declares cls attr = true.
Proof.
  intros [hc Hc]%table_get_common. unfold helper_cls_for, declares.
  rewrite bool_decide_eq_true.
  destruct (class_attributes cls !! attr) as [prop|]; simpl.
  - unfold select_helper_cls. rewrite Hc. split; eauto.
  - split; by intros [? ?].
Qed.

(** Any other name gets the helper of its declared type, if there is one. *)
Lemma helper_cls_for_other cls attr :
  attr ∉ well_known_names -> helper_cls_for cls attr = type_editor cls attr.
Proof.
  intros Hc%table_get_not_common. unfold helper_cls_for, type_editor.
  destruct (class_attributes cls !! attr) as [[[ty|]]|]; simpl; try done;
    unfold select_helper_cls; by rewrite Hc.
Qed.

Lemma filter_ext_elem {A} (P Q : A -> Prop)
    `{!forall x, Decision (P x), !forall x, Decision (Q x)} (l : list A) :
  (forall x, x ∈ l -> P x <-> Q x) -> filter P l = filter Q l.
Proof.
  induction l as [|x l IH]; intros Hext; [done|].
  rewrite !filter_cons.
  rewrite IH by (intros y Hy; apply Hext; by right).
  apply decide_ext, Hext. by left.
Qed.

(** The names that get a helper, in the order of the loop. *)
Lemma names_with_helper cls :
  filter (fun a => is_Some (helper_cls_for cls a)) (loop_attrs cls)
  = filter (fun attr => declares cls attr = true) well_known_names
    ++ filter (fun attr => is_Some (type_editor cls attr)) (other_attrs cls).
Proof.
  unfold loop_attrs. rewrite filter_app. f_equal.
  - apply filter_ext_elem. intros a Ha. by apply helper_cls_for_common.
  - apply filter_ext_elem. intros a [Ha _]%list_elem_of_filter.
    apply is_common_false in Ha. by rewrite helper_cls_for_other.
Qed.

(** A name of the loop with its helper class, by the two tables. *)
Lemma editor_of_class cls attr hc :
  (attr, hc) ∈ omap (fun a => pair a <$> helper_cls_for cls a) (loop_attrs cls)
  <->
  exists prop,
    class_attributes cls !! attr = Some prop /\
    (table_get attr _common_attributes_ = Some hc \/
     (table_get attr _common_attributes_ = None /\
      attr ∈ get_qt_properties cls /\
      exists ty,
        attr_type prop = Some ty /\
        table_get ty _type_to_widget_ = Some hc)).
Proof.
  destruct (other_attrs_spec cls) as [_ Hperm].
  rewrite list_elem_of_omap. split.
  - intros (a & Hin & Ha).
    destruct (helper_cls_for cls a) as [hc'|] eqn:Hc; simpl in Ha; [|done].
    injection Ha as -> ->.
    unfold helper_cls_for in Hc.
    destruct (class_attributes cls !! attr) as [prop|]; [|done].
    exists prop. split; [done|].
    unfold select_helper_cls in Hc.
    destruct (table_get attr _common_attributes_) as [hc'|] eqn:Hname.
    + left. congruence.
    + right. split; [done|]. split.
      * unfold loop_attrs in Hin. apply elem_of_app in Hin as [Hin|Hin].
        -- apply (is_common_spec attr) in Hin. unfold is_common in Hin.
           apply bool_decide_eq_true in Hin as [? Hin]. congruence.
        -- rewrite Hperm in Hin. by apply list_elem_of_filter in Hin as [_ Hin].
      * destruct (attr_type prop) as [ty|]; simpl in Hc; [|done]. eauto.
  - intros (prop & Hprop & [Hname|(Hname & Hin & ty & Hty & Htype)]).
    + exists attr. split.
      * unfold loop_attrs. apply elem_of_app. left.
        apply (is_common_spec attr). unfold is_common.
        apply bool_decide_eq_true. rewrite Hname. eauto.
      * unfold helper_cls_for, select_helper_cls. by rewrite Hprop, Hname.
    + exists attr. split.
      * unfold loop_attrs. apply elem_of_app. right. rewrite Hperm.
        apply list_elem_of_filter. split; [|done].
        unfold is_common. apply bool_decide_eq_false. rewrite Hname.
        by intros [? ?].
      * unfold helper_cls_for, select_helper_cls.
        rewrite Hprop, Hname, Hty. cbn [mbind option_bind]. by rewrite Htype.
Qed.

End dispatch.

(** ** Discovery, dispatch and construction: the claims *)

Section construction_claims.

Variable parse_macro_string : pyval -> result (list (string * string)).

(** C5, as the code has it. The dialog always opens, and its editors
    are, in order: the well-known names channel, display, macros,
    filenames, rules that the class of the target declares; then, of
    the remaining designable properties in ascending order of their
    names (by code point, as [sorted] gives them), those whose declared
    type has an entry in the type table.  For designable string
    properties zeta, channel, alpha, macros the order is channel,
    macros, alpha, zeta. *)
Theorem editor_order w :
  let cls := widget_type (widget w) in
  exists self w',
    __init__ parse_macro_string w = (Ok self, w') /\
    editor_names self
      = filter (fun attr => declares cls attr = true) well_known_names
        ++ filter (fun attr => is_Some (type_editor cls attr)) (other_attrs cls) /\
    StronglySorted str_le (other_attrs cls) /\
    other_attrs cls
      ≡ₚ filter (fun attr => is_common attr = false) (get_qt_properties cls) /\
    (cls = zeta_class ->
     editor_names self = ["channel"; "macros"; "alpha"; "zeta"]).
Proof.
  intros cls.
  destruct (init_names parse_macro_string w) as (self & l' & Hinit & _ & Hnames).
  fold cls in Hnames. rewrite names_with_helper in Hnames.
  destruct (other_attrs_spec cls) as [Hsorted Hperm].
  exists self, {| widget := widget w; log := log w ++ l' |}.
  split_and!; [done..|].
  intros Hcls. rewrite Hnames, Hcls. by vm_compute.
Qed.

(** C6. The name table is consulted before the type table: a name with
    an entry there gets that helper class whatever its declared type;
    any other name gets the class of its declared type; with no entry
    in either table the property is passed over, and the loop goes on
    as if it were not there (no helper, no exception, nothing logged).
    A target that declares macros as a plain string gets the macro
    table for it.  So it is in the dialog that opens: it has an editor
    of class [hc] for a property exactly when the class of the target
    declares the property and either the name table gives [hc] for its
    name, or the name table has no entry for it, the property is
    designable and the type table gives [hc] for its declared type.
    A class with designable properties paths (a QStringList),
    precision (an int), showUnits (a bool), step (a float) and text (a
    string), and with rules declared as an int, gets the rule editor for
    rules, then a string list, a spin box, a check box and a line edit,
    and nothing for step. *)
Theorem dispatch_name_before_type :
  (forall attr cls ty,
     table_get attr _common_attributes_ = Some cls ->
     select_helper_cls attr ty = Some cls) /\
  (forall attr ty,
     table_get attr _common_attributes_ = None ->
     select_helper_cls attr ty
       = (ty ≫= (fun t => table_get t _type_to_widget_))) /\
  (forall wcls attr prop attrs w,
     class_attributes wcls !! attr = Some prop ->
     table_get attr _common_attributes_ = None ->
     (attr_type prop ≫= (fun t => table_get t _type_to_widget_)) = None ->
     create_helpers parse_macro_string wcls (attr :: attrs) w
       = create_helpers parse_macro_string wcls attrs w) /\
  select_helper_cls "macros" (Some Tstr) = Some PropertyMacroTable /\
  table_get Tstr _type_to_widget_ = Some PropertyLineEdit /\
  (forall w,
     class_attributes (widget_type (widget w)) !! "macros"
       = Some (property_of Tstr) ->
     exists self w',
       __init__ parse_macro_string w = (Ok self, w') /\
       ("macros", PropertyMacroTable)
         ∈ map (fun h => (_property_name h, class_of (helper_control h)))
               (property_widgets self)) /\
  (forall w,
     let cls := widget_type (widget w) in
     exists self w',
       __init__ parse_macro_string w = (Ok self, w') /\
       (forall attr hc,
          (attr, hc)
            ∈ map (fun h => (_property_name h, class_of (helper_control h)))
                  (property_widgets self)
          <->
          exists prop,
            class_attributes cls !! attr = Some prop /\
            (table_get attr _common_attributes_ = Some hc \/
             (table_get attr _common_attributes_ = None /\
              attr ∈ get_qt_properties cls /\
              exists ty,
                attr_type prop = Some ty /\
                table_get ty _type_to_widget_ = Some hc))) /\
       (cls = typed_class ->
        map (fun h => (_property_name h, class_of (helper_control h)))
            (property_widgets self)
        = [("rules", PropertyRuleEditor); ("paths", PropertyStringList);
           ("precision", PropertyIntSpinBox); ("showUnits", PropertyCheckbox);
           ("text", PropertyLineEdit)])).
Proof.
  split_and!.
  - intros attr cls ty H. unfold select_helper_cls. by rewrite H.
  - intros attr ty H. unfold select_helper_cls. by rewrite H.
  - intros wcls attr prop attrs w Hprop Hname Htype. simpl.
    unfold helper_cls_for. rewrite Hprop. unfold select_helper_cls.
    by rewrite Hname, Htype.
  - reflexivity.
  - reflexivity.
  - intros w Hmacros.
    destruct (init_ok parse_macro_string w) as (self & l' & Hinit & _ & Hmap).
    eexists _, _. split; [done|]. rewrite Hmap.
    apply list_elem_of_omap. exists "macros". split.
    + unfold loop_attrs. apply elem_of_app. left. simpl. set_solver.
    + unfold helper_cls_for. by rewrite Hmacros.
  - intros w cls.
    destruct (init_ok parse_macro_string w) as (self & l' & Hinit & _ & Hmap).
    fold cls in Hmap.
    eexists _, _. split; [done|]. rewrite Hmap. split.
    + intros attr hc. rewrite editor_of_class. done.
    + intros ->. by vm_compute.
Qed.

(** C7, as the code has it. The properties that get an editor are
    exactly: the well-known names that the class of the target
    declares, designable or not; and the other designable properties
    whose declared type has an entry in the type table.  When the
    meta-object lists no designable name twice, no property gets two
    editors. *)
Theorem editors_exactly w :
  let cls := widget_type (widget w) in
  exists self w',
    __init__ parse_macro_string w = (Ok self, w') /\
    (forall attr,
       attr ∈ editor_names self <->
         (attr ∈ well_known_names /\ declares cls attr = true) \/
         ((attr ∉ well_known_names) /\ attr ∈ get_qt_properties cls /\
          is_Some (type_editor cls attr))) /\
    (NoDup (get_qt_properties cls) -> NoDup (editor_names self)).
Proof.
  intros cls.
  destruct (init_names parse_macro_string w) as (self & l' & Hinit & _ & Hnames).
  fold cls in Hnames. rewrite names_with_helper in Hnames.
  destruct (other_attrs_spec cls) as [_ Hperm].
  exists self, {| widget := widget w; log := log w ++ l' |}.
  split_and!; [done| |].
  - intros attr. rewrite Hnames, elem_of_app, !list_elem_of_filter, Hperm.
    rewrite list_elem_of_filter, is_common_false. tauto.
  - intros Hnodup. rewrite Hnames. apply NoDup_app. split_and!.
    + apply NoDup_filter. unfold well_known_names.
      apply NoDup_ListNoDup. repeat (constructor; [simpl; intuition discriminate|]).
      constructor.
    + intros attr [_ Hin]%list_elem_of_filter [_ Hother]%list_elem_of_filter.
      rewrite Hperm in Hother. apply list_elem_of_filter in Hother as [Hnc _].
      by apply is_common_false in Hnc.
    + apply NoDup_filter. rewrite Hperm. by apply NoDup_filter.
Qed.

End construction_claims.

(** ** The session: user actions, Cancel and Save *)

Section session_steps.

Lemma edit_control_class a c : class_of (edit_control a c) = class_of c.
Proof. by destruct a, c. Qed.

Lemma opens_rules_editor_classes self1 self2 a :
  helper_classes self1 = helper_classes self2 ->
  opens_rules_editor self1 a = opens_rules_editor self2 a.
Proof. unfold opens_rules_editor. by intros ->. Qed.

Lemma rules_editor_writes_classes self1 self2 acts : forall target,
  helper_classes self1 = helper_classes self2 ->
  rules_editor_writes self1 acts target = rules_editor_writes self2 acts target.
Proof.
  induction acts as [|a acts IH]; intros target Hcls; simpl; [done|].
  rewrite (opens_rules_editor_classes self1 self2 a Hcls). by apply IH.
Qed.

Lemma rules_editor_writes_none self acts : forall target,
  Forall (fun a => opens_rules_editor self a = false) acts ->
  rules_editor_writes self acts target = target.
Proof.
  induction acts as [|a acts IH]; intros target Hacts; simpl; [done|].
  inversion Hacts as [|? ? Ha Hacts']; subst.
  rewrite Ha, IH by done. by destruct a.
Qed.

Lemma alter_edit_classes a self :
  helper_classes
    {| property_widgets :=
         alter (fun h => {| _property_name := _property_name h;
                            helper_control := edit_control a (helper_control h) |})
               (action_index a) (property_widgets self);
       settings_form := settings_form self;
       state := state self |}
  = helper_classes self.
Proof.
  unfold helper_classes. cbn [property_widgets].
  apply list_eq. intros j. rewrite !list_lookup_fmap.
  destruct (decide (j = action_index a)) as [->|Hne].
  - rewrite list_lookup_alter_eq.
    destruct (property_widgets self !! action_index a); [|done].
    cbn. by rewrite edit_control_class.
  - by rewrite list_lookup_alter_ne.
Qed.

(** One action of the user: only the rule sub-editor touches the target,
    and the helpers stay of the same classes. *)
Lemma user_step_spec a self w :
  exists self',
    user_step a self w
      = (Ok self', {| widget := rules_editor_writes self [a] (widget w);
                      log := log w |}) /\
    helper_classes self' = helper_classes self /\
    state self' = state self.
Proof.
  assert (forall w0 : World, {| widget := widget w0; log := log w0 |} = w0) as Heta
    by (by intros []).
  destruct a as [i b|i s|i z|i r c s|i|i r|i rules_editor];
    try (eexists; unfold user_step, ret; cbn [rules_editor_writes];
         rewrite Heta; split_and!; [done | apply alter_edit_classes | done]).
  unfold user_step. cbn [rules_editor_writes].
  destruct (opens_rules_editor self (OpenRulesEditor i rules_editor)).
  - exists self. by unfold _open_rules_editor, bind, ret.
  - exists self. by unfold ret; rewrite Heta.
Qed.

Lemma user_steps_spec acts : forall self w,
  exists self',
    user_steps acts self w
      = (Ok self', {| widget := rules_editor_writes self acts (widget w);
                      log := log w |}) /\
    helper_classes self' = helper_classes self /\
    state self' = state self.
Proof.
  induction acts as [|a acts IH]; intros self w.
  - exists self. simpl. unfold ret. by destruct w.
  - destruct (user_step_spec a self w) as (self1 & Hstep & Hcls1 & Hst1).
    destruct (IH self1 {| widget := rules_editor_writes self [a] (widget w);
                           log := log w |})
      as (self' & Hsteps & Hcls & Hst).
    exists self'. simpl user_steps. unfold bind at 1. rewrite Hstep, Hsteps.
    simpl. rewrite (rules_editor_writes_classes self1 self acts _ Hcls1).
    split_and!; [done | congruence | congruence].
Qed.

End session_steps.

Section save.

Variable json_dumps : list (string * string) -> string.

Lemma for_each_ok {A} (body : A -> M unit) (l : list A) :
  (forall x w, x ∈ l -> outcome (body x) w = Ok tt) ->
  forall w,
    for_each l body w
      = (Ok tt, fold_left (fun w x => final_world (body x) w) l w).
Proof.
  induction l as [|x l IH]; intros Hok w; simpl; [done|].
  unfold bind at 1. specialize (Hok x w ltac:(by left)) as Hx.
  unfold outcome in Hx. unfold final_world at 2.
  destruct (body x w) as [r w'] eqn:E. simpl in *. subst r.
  apply IH. intros y w0 Hy. apply Hok. by right.
Qed.

(** One editor whose value can be read: the value is written unless it
    is [None]; a write that raises is logged and leaves the target as
    it was; nothing is raised. *)
Lemma save_one_read_ok helper value w :
  saved_value json_dumps helper = Ok value ->
  let object_name := objectName (widget w) in
  let property_name := _property_name helper in
  save_one json_dumps helper w =
    (Ok tt,
     match value with
     | Atom PyNone => w
     | _ =>
         match write_raises (widget w) property_name value with
         | None =>
             {| widget := set_attribute property_name value (widget w);
                log := log w ++ [Updating object_name property_name value] |}
         | Some _ =>
             {| widget := widget w;
                log := log w ++ [Updating object_name property_name value;
                                 FailedToSave object_name property_name value] |}
         end
     end).
Proof.
  intros Hread. unfold save_one, save_settings, update_property_for_widget,
    write_raises.
  unfold_monad. rewrite Hread.
  assert (forall l1 (a b : LogRecord), (l1 ++ [a]) ++ [b] = l1 ++ [a; b]) as Happ
    by (intros; by rewrite <- app_assoc).
  destruct value as [[| | |]|]; try done;
    destruct (formWindow (widget w)); simpl;
    repeat case_match; simplify_eq/=; by rewrite ?Happ.
Qed.

(** When every editor's value can be read, Save runs the save step of
    every editor in order, whatever the writes raise, and accepts the
    dialog. *)
Lemma save_changes_write_failures_absorbed self w :
  (forall helper, helper ∈ property_widgets self ->
                  exists value, saved_value json_dumps helper = Ok value) ->
  save_changes json_dumps self w
    = (Ok (set_state Accepted self),
       fold_left (fun w helper => final_world (save_one json_dumps helper) w)
                 (property_widgets self) w).
Proof.
  intros Hreads. unfold save_changes. unfold bind at 1.
  rewrite for_each_ok; [done|].
  intros helper w0 Hin. destruct (Hreads helper Hin) as [value Hvalue].
  unfold outcome. by rewrite (save_one_read_ok helper value w0 Hvalue).
Qed.

End save.

Section session_claims.

Variable parse_macro_string : pyval -> result (list (string * string)).


(** C2. Cancel itself changes nothing but the state of the dialog.  Over
    a whole session that ends with Cancel (the dialog opens, the user
    acts, Cancel), the target ends as the writes of the rule sub-editor
    alone leave it; when the user never opened the rule sub-editor, the
    target is as it was before the dialog opened. *)
Theorem cancel_writes_nothing acts w :
  (forall self w0,
     cancel_changes self w0 = (Ok (set_state Rejected self), w0)) /\
  exists self0 w0 self',
    __init__ parse_macro_string w = (Ok self0, w0) /\
    widget w0 = widget w /\
    cancelled_session parse_macro_string acts w
      = (Ok self',
         {| widget := rules_editor_writes self0 acts (widget w);
            log := log w0 |}) /\
    state self' = Rejected /\
    (Forall (fun a => opens_rules_editor self0 a = false) acts ->
     widget (final_world (cancelled_session parse_macro_string acts) w)
       = widget w).
Proof.
  split; [done|].
  destruct (init_ok parse_macro_string w) as (self0 & l0 & Hinit & _ & _).
  destruct (user_steps_spec acts self0 {| widget := widget w; log := log w ++ l0 |})
    as (self1 & Hsteps & _ & _).
  simpl in Hsteps.
  exists self0, {| widget := widget w; log := log w ++ l0 |}, (set_state Rejected self1).
  assert (cancelled_session parse_macro_string acts w
          = (Ok (set_state Rejected self1),
             {| widget := rules_editor_writes self0 acts (widget w);
                log := log w ++ l0 |})) as Hrun.
  { unfold cancelled_session. unfold bind at 1. rewrite Hinit.
    unfold bind at 1. by rewrite Hsteps. }
  split_and!; [done..|].
  intros Hnone. unfold final_world. rewrite Hrun. simpl.
  by apply rules_editor_writes_none.
Qed.

(** The dialog gives its helpers the classes of its two tables only, so
    their values can always be read. *)
Lemma helper_cls_for_not_bare cls attr hc :
  helper_cls_for cls attr = Some hc -> hc <> _PropertyHelper.
Proof.
  unfold helper_cls_for, select_helper_cls.
  destruct (class_attributes cls !! attr) as [[ty]|]; [|done]. simpl.
  repeat case_decide; try (by intros [= <-]).
  destruct ty as [ty|]; simpl; [|done].
  repeat case_decide; by intros [= <-].
Qed.

Lemma saved_value_readable json_dumps helper :
  class_of (helper_control helper) <> _PropertyHelper ->
  exists value, saved_value json_dumps helper = Ok value.
Proof. unfold saved_value. destruct (helper_control helper); by eauto. Qed.

(** The helpers of an opened dialog, and of any dialog with helpers of
    the same classes, can all be read. *)
Lemma opened_helpers_readable json_dumps w self0 w0 self1 :
  __init__ parse_macro_string w = (Ok self0, w0) ->
  helper_classes self1 = helper_classes self0 ->
  forall helper, helper ∈ property_widgets self1 ->
                 exists value, saved_value json_dumps helper = Ok value.
Proof.
  intros Hinit0 Hcls helper Hin.
  destruct (init_ok parse_macro_string w) as (self & l0 & Hinit & _ & Hmap).
  rewrite Hinit0 in Hinit. injection Hinit as <- _.
  apply saved_value_readable. intros Hbare.
  assert (_PropertyHelper ∈ helper_classes self0) as Hin0.
  { rewrite <- Hcls, <- Hbare. unfold helper_classes.
    by apply (list_elem_of_fmap_2 (fun h => class_of (helper_control h))). }
  unfold helper_classes in Hin0.
  apply list_elem_of_fmap in Hin0 as (h0 & Hh0 & Hin0).
  assert ((_property_name h0, class_of (helper_control h0))
          ∈ map (fun h => (_property_name h, class_of (helper_control h)))
                (property_widgets self0)) as Hpair
    by (by apply (list_elem_of_fmap_2
                    (fun h => (_property_name h, class_of (helper_control h))))).
  rewrite Hmap in Hpair.
  apply list_elem_of_omap in Hpair as (a & _ & Ha).
  destruct (helper_cls_for (widget_type (widget w)) a) as [hc|] eqn:Hhc;
    simpl in Ha; [|done].
  injection Ha as _ Hc. apply (helper_cls_for_not_bare _ _ _ Hhc). congruence.
Qed.

(** C1. In every session of the dialog (it opens on a target, the user
    acts, Save), [save_changes] does not raise: it runs the save step of
    every editor, in the order of the list, and accepts the dialog,
    however many of the steps fail.  The editors of the dialog are of
    the classes of its two tables, whose values can always be read, so
    a save step fails only where the write raises; that step logs the
    failure, leaves the target as it was and raises nothing, and the
    steps of the editors after it run as they would have. *)
Theorem save_absorbs_failures json_dumps acts w :
  exists self0 w0 self w1,
    __init__ parse_macro_string w = (Ok self0, w0) /\
    user_steps acts self0 w0 = (Ok self, w1) /\
    (forall helper,
       helper ∈ property_widgets self ->
       exists value,
         saved_value json_dumps helper = Ok value /\
         forall w2,
           let object_name := objectName (widget w2) in
           let property_name := _property_name helper in
           save_one json_dumps helper w2 =
             (Ok tt,
              match value with
              | Atom PyNone => w2
              | _ =>
                  match write_raises (widget w2) property_name value with
                  | None =>
                      {| widget := set_attribute property_name value (widget w2);
                         log := log w2
                                ++ [Updating object_name property_name value] |}
                  | Some _ =>
                      {| widget := widget w2;
                         log := log w2
                                ++ [Updating object_name property_name value;
                                    FailedToSave object_name property_name value] |}
                  end
              end)) /\
    save_changes json_dumps self w1
      = (Ok (set_state Accepted self),
         fold_left (fun w helper => final_world (save_one json_dumps helper) w)
                   (property_widgets self) w1) /\
    saved_session parse_macro_string json_dumps acts w
      = save_changes json_dumps self w1 /\
    state (set_state Accepted self) = Accepted.
Proof.
  destruct (init_ok parse_macro_string w) as (self0 & l0 & Hinit & _ & _).
  destruct (user_steps_spec acts self0 {| widget := widget w; log := log w ++ l0 |})
    as (self1 & Hsteps & Hcls & _).
  pose proof (opened_helpers_readable json_dumps w self0 _ self1 Hinit Hcls)
    as Hreads.
  eexists self0, _, self1, _. split_and!; [exact Hinit | exact Hsteps | | | | done].
  - intros helper Hin. destruct (Hreads helper Hin) as [value Hvalue].
    exists value. split; [done|]. intros w2.
    by apply save_one_read_ok.
  - by apply save_changes_write_failures_absorbed.
  - unfold saved_session. unfold bind at 1. rewrite Hinit.
    unfold bind at 1. by rewrite Hsteps.
Qed.

End session_claims.

(** ** Worked examples *)

Lemma save_absorbs_failures_witness :
  let w := world_of write_protected_channel in
  let acts := [SetText 0 "ca://Y"; SetText 2 " a "] in
  exists self w',
    saved_session sample_parse_macro_string sample_json_dumps acts w = (Ok self, w') /\
    state self = Accepted /\
    editor_names self = ["channel"; "macros"; "alpha"; "zeta"] /\
    attributes (widget w') !! "channel" = Some (Atom (PyStr "ca://X")) /\
    attributes (widget w') !! "alpha" = Some (Atom (PyStr "a")) /\
    log w'
      = [ Updating "widget" "channel" (PyStr "ca://Y");
          FailedToSave "widget" "channel" (PyStr "ca://Y");
          Updating "widget" "macros" (PyStr "");
          Updating "widget" "alpha" (PyStr "a");
          Updating "widget" "zeta" (PyStr "") ].
Proof.
  intros w acts.
  destruct (save_absorbs_failures sample_parse_macro_string sample_json_dumps acts w)
    as (self0 & w0 & self & w1 & Hinit & Hsteps & _ & Hsave & Hsession & Hstate).
  eexists _, _. split; [by rewrite Hsession, Hsave|].
  split; [exact Hstate|].
  vm_compute in Hinit. injection Hinit as <- <-.
  vm_compute in Hsteps. injection Hsteps as <- <-.
  by vm_compute.
Defined.

Lemma cancel_writes_nothing_witness :
  let w := world_of (plain_widget zeta_class {[ "channel" := Atom (PyStr "ca://X") ]}) in
  let acts := [SetText 0 "ca://Y"; AddRow 1; Paste 1 0 0 "A"] in
  widget (final_world (cancelled_session sample_parse_macro_string acts) w)
    = widget w.
Proof.
  intros w acts.
  destruct (cancel_writes_nothing sample_parse_macro_string acts w)
    as (_ & self0 & w0 & self' & _ & _ & _ & _ & Hnone).
  apply Hnone. unfold acts. by repeat constructor.
Defined.

Lemma editor_order_witness :
  exists self w',
    __init__ sample_parse_macro_string (world_of (plain_widget zeta_class ∅))
      = (Ok self, w') /\
    editor_names self = ["channel"; "macros"; "alpha"; "zeta"].
Proof.
  destruct (editor_order sample_parse_macro_string
              (world_of (plain_widget zeta_class ∅)))
    as (self & w' & Hinit & _ & _ & _ & Hzeta).
  exists self, w'. split; [exact Hinit | apply Hzeta; reflexivity].
Defined.

(** C5, as the specification states it, fails: the designable property
    step, a float, is one of the remaining designable properties but gets
    no editor. *)
Lemma editor_order_skips_step :
  match __init__ sample_parse_macro_string (world_of (plain_widget step_class ∅)) with
  | (Ok self, _) =>
      editor_names self = ["channel"] /\
      editor_order_spec step_class = ["channel"; "step"] /\
      editor_names self <> editor_order_spec step_class
  | (Raise _, _) => False
  end.
Proof. vm_compute. split_and!; [reflexivity | reflexivity | discriminate]. Qed.

Lemma dispatch_name_before_type_witness :
  select_helper_cls "rules" (Some Tint) = Some PropertyRuleEditor /\
  select_helper_cls "precision" (Some Tint) = Some PropertyIntSpinBox /\
  create_helpers sample_parse_macro_string step_class ["step"; "channel"]
      (world_of (plain_widget step_class ∅))
    = create_helpers sample_parse_macro_string step_class ["channel"]
        (world_of (plain_widget step_class ∅)) /\
  (exists self w',
     __init__ sample_parse_macro_string (world_of (plain_widget zeta_class ∅))
       = (Ok self, w') /\
     ("macros", PropertyMacroTable)
       ∈ map (fun h => (_property_name h, class_of (helper_control h)))
             (property_widgets self)) /\
  exists self w',
    __init__ sample_parse_macro_string (world_of (plain_widget typed_class ∅))
      = (Ok self, w') /\
    ("precision", PropertyIntSpinBox)
      ∈ map (fun h => (_property_name h, class_of (helper_control h)))
            (property_widgets self) /\
    ("rules", PropertyRuleEditor)
      ∈ map (fun h => (_property_name h, class_of (helper_control h)))
            (property_widgets self) /\
    map (fun h => (_property_name h, class_of (helper_control h)))
        (property_widgets self)
    = [("rules", PropertyRuleEditor); ("paths", PropertyStringList);
       ("precision", PropertyIntSpinBox); ("showUnits", PropertyCheckbox);
       ("text", PropertyLineEdit)].
Proof.
  destruct (dispatch_name_before_type sample_parse_macro_string)
    as (Hname & Htype & Hskip & _ & _ & Hmacros & Hdialog).
  split_and!.
  - apply Hname. reflexivity.
  - rewrite Htype by reflexivity. reflexivity.
  - apply (Hskip step_class "step" (property_of (Tobject "float")));
      reflexivity.
  - apply Hmacros. reflexivity.
  - destruct (Hdialog (world_of (plain_widget typed_class ∅)))
      as (self & w' & Hinit & Hiff & Htyped).
    exists self, w'. split_and!; [exact Hinit | | | by apply Htyped].
    + apply Hiff. exists (property_of Tint). split; [reflexivity|].
      right. split; [reflexivity|]. split.
      * apply (bool_decide_unpack _). by vm_compute.
      * exists Tint. by split.
    + apply Hiff. exists (property_of Tint). split; [reflexivity|].
      by left.
Defined.

Lemma editors_exactly_witness :
  exists self w',
    __init__ sample_parse_macro_string (world_of (plain_widget rules_class ∅))
      = (Ok self, w') /\
    NoDup (editor_names self).
Proof.
  destruct (editors_exactly sample_parse_macro_string
              (world_of (plain_widget rules_class ∅)))
    as (self & w' & Hinit & _ & Hnodup).
  exists self, w'. split; [exact Hinit|]. apply Hnodup.
  vm_compute. apply NoDup_singleton.
Defined.

(** C7, as the specification states it, fails: rules is declared but not
    designable, and gets an editor. *)
Lemma editors_include_undesignable_rules :
  match __init__ sample_parse_macro_string (world_of (plain_widget rules_class ∅)) with
  | (Ok self, _) =>
      editor_names self = ["channel"; "rules"] /\
      get_qt_properties rules_class = ["channel"] /\
      "rules" ∈ editor_names self /\
      "rules" ∉ get_qt_properties rules_class
  | (Raise _, _) => False
  end.
Proof.
  vm_compute. split_and!; [reflexivity | reflexivity | |].
  - right. left.
  - intros H. apply list_elem_of_singleton in H. discriminate.
Qed.


(* ================================================================== *)
(** * Further properties of the code *)
(* ================================================================== *)

(** ** The tables: constructors, setters and getters *)

Lemma dictionary_installed (m : list (string * string)) (self : QTableWidget) :
  columnCount self = 2 ->
  Qt.rowCount (DictionaryTable.set_dictionary (Some m) self) = length m /\
  DictionaryTable.dictionary (DictionaryTable.set_dictionary (Some m) self)
    = dict_of_pairs (map (fun kv => (Py.strip kv.1, kv.2)) m).
Proof.
  intros Hcol. unfold DictionaryTable.dictionary, DictionaryTable.set_dictionary.
  simpl. unfold enumerate.
  destruct (fill_rows m 0 (Qt.setRowCount (length m) self)) as (Hc & Hr & Hitem).
  simpl in Hc, Hr, Hitem. rewrite Hr, rowCount_setRowCount.
  split; [done|]. f_equal. rewrite !map_map.
  apply map_range. intros r [k v] Hrow. simpl.
  destruct (Hitem Hcol ltac:(rewrite rowCount_setRowCount; lia) r) as [-> ->].
  apply lookup_lt_Some in Hrow as Hlt.
  rewrite !decide_True by lia. by rewrite !Nat.sub_0_r, !Hrow.
Qed.

Lemma values_filled (elems : list pyatom) (self : QTableWidget) :
  columnCount self = 1 ->
  let self' := fold_left (fun self rv => Qt.setItem rv.1 0 (py_str rv.2) self)
                 (enumerate elems) (Qt.setRowCount (length elems) self) in
  Qt.rowCount self' = length elems /\
  StringListTable.values self' = map (fun v => Py.strip (py_str v)) elems.
Proof.
  intros Hcol. unfold StringListTable.values, enumerate. simpl.
  destruct (fill_column elems 0 (Qt.setRowCount (length elems) self))
    as (Hc & Hr & Hitem).
  simpl in Hc, Hr, Hitem. rewrite Hr, rowCount_setRowCount. split; [done|].
  rewrite (map_range _ (fun v => Some (py_str v)) elems).
  - clear. induction elems as [|x elems IH]; [done|]. cbn. by f_equal.
  - intros r x Hx. rewrite Hitem; [|simpl; lia|rewrite rowCount_setRowCount; lia].
    apply lookup_lt_Some in Hx as Hlt.
    rewrite decide_True by lia. by rewrite Nat.sub_0_r, Hx.
Qed.

(** X1. Unlike the string-list table, the dictionary table installs the
    argument of its constructor: a new table built from [m] has one row
    for each entry of [m] and reads back as [m] with trimmed keys; built
    from [None] it has no rows. *)
Theorem DictionaryTable_init_installs (m : list (string * string)) :
  Qt.rowCount (DictionaryTable.__init__ (Some m)) = length m /\
  DictionaryTable.dictionary (DictionaryTable.__init__ (Some m))
    = dict_of_pairs (map (fun kv => (Py.strip kv.1, kv.2)) m) /\
  Qt.rowCount (DictionaryTable.__init__ None) = 0 /\
  DictionaryTable.dictionary (DictionaryTable.__init__ None) = [].
Proof.
  unfold DictionaryTable.__init__.
  destruct (dictionary_installed m (Qt.setColumnCount 2 Qt.new_table) eq_refl)
    as [Hrows Hdict].
  split_and!; [exact Hrows | exact Hdict | reflexivity | reflexivity].
Qed.

Lemma setRowCount_0 (self : QTableWidget) :
  Qt.setRowCount 0 self = mkTable (columnCount self) [].
Proof. unfold Qt.setRowCount. by rewrite resize_0. Qed.

(** X2. A setter given a false value empties the table, whatever the
    table held: [None] or an empty mapping for the dictionary table;
    [None], an empty list, an empty string, zero or [False] for the
    string-list table. *)
Theorem setters_clear_on_falsy :
  (forall self,
     Qt.rowCount (DictionaryTable.set_dictionary None self) = 0 /\
     DictionaryTable.dictionary (DictionaryTable.set_dictionary None self) = [] /\
     DictionaryTable.set_dictionary (Some []) self
       = DictionaryTable.set_dictionary None self) /\
  (forall values self,
     py_truthy values = false ->
     exists self',
       StringListTable.set_values values self = Ok self' /\
       Qt.rowCount self' = 0 /\
       StringListTable.values self' = []).
Proof.
  split.
  - intros self. unfold DictionaryTable.set_dictionary. simpl.
    rewrite setRowCount_0. split_and!; reflexivity.
  - intros values self Hfalse. unfold StringListTable.set_values, py_or.
    rewrite Hfalse. simpl. rewrite setRowCount_0.
    eexists. split_and!; reflexivity.
Qed.

Lemma setters_clear_on_falsy_witness :
  let full := DictionaryTable.__init__ (Some [("a", "1"); ("b", "2")]) in
  exists self',
    StringListTable.set_values (PyInt 0) full = Ok self' /\
    Qt.rowCount self' = 0 /\ StringListTable.values self' = [].
Proof.
  intros full.
  exact (proj2 setters_clear_on_falsy (PyInt 0) full eq_refl).
Defined.

Lemma chars_strings (s : string) :
  map (fun v => Py.strip (py_str v)) (chars s)
  = map (fun c => Py.strip (String c EmptyString)) (list_ascii_of_string s).
Proof. induction s as [|c s IH]; [done|]. simpl. by rewrite IH. Qed.

(** X3. A string given to the setter of the string-list table is taken as
    a sequence of characters: the table gets one row for each character
    of the string, and reads back as the characters, each trimmed (a
    whitespace character reads back as the empty string). *)
Theorem values_of_string_by_character (s : string) (self : QTableWidget) :
  columnCount self = 1 ->
  values_roundtrip (PyStr s) self
    = Ok (map (fun c => Py.strip (String c EmptyString)) (list_ascii_of_string s)).
Proof.
  intros Hcol. unfold values_roundtrip, StringListTable.set_values.
  assert (py_iter (py_or (PyStr s) (PyList [])) = Ok (chars s)) as ->.
  { unfold py_or. simpl. by destruct s. }
  f_equal. rewrite <- chars_strings.
  by apply (values_filled (chars s) self Hcol).
Qed.

Lemma values_of_string_by_character_witness :
  let self := StringListTable.__init__ PyNone in
  columnCount self = 1 /\
  values_roundtrip (PyStr "a.ui") self = Ok ["a"; "."; "u"; "i"].
Proof.
  intros self. split; [reflexivity|].
  rewrite (values_of_string_by_character "a.ui" self eq_refl). reflexivity.
Defined.

(** ** Trimming *)

Lemma rstrip_rstrip s : Py.rstrip (Py.rstrip s) = Py.rstrip s.
Proof.
  induction s as [|c r IH]; [done|]. simpl.
  destruct (Py.rstrip r) as [|d r'] eqn:E.
  - destruct (Py.isspace c) eqn:Ec; [done|]. simpl. by rewrite Ec.
  - simpl. simpl in IH. by rewrite IH.
Qed.

Lemma rstrip_keeps_head c r :
  Py.isspace c = false -> exists r', Py.rstrip (String c r) = String c r'.
Proof. intros Hc. simpl. destruct (Py.rstrip r); rewrite ?Hc; eauto. Qed.

Lemma lstrip_starts s :
  Py.lstrip s = EmptyString \/
  exists c r, Py.lstrip s = String c r /\ Py.isspace c = false.
Proof.
  induction s as [|c r IH]; [by left|]. simpl.
  destruct (Py.isspace c) eqn:Ec; [done|]. right. eauto.
Qed.

(** What [strip] returns is empty or starts with a character that is not
    whitespace. *)
Lemma strip_starts s :
  Py.strip s = EmptyString \/
  exists c r, Py.strip s = String c r /\ Py.isspace c = false.
Proof.
  unfold Py.strip. destruct (lstrip_starts s) as [->|(c & r & -> & Hc)]; [by left|].
  destruct (rstrip_keeps_head c r Hc) as [r' ->]. right. eauto.
Qed.

Lemma strip_strip s : Py.strip (Py.strip s) = Py.strip s.
Proof.
  destruct (strip_starts s) as [->|(c & r & Hs & Hc)]; [done|].
  unfold Py.strip at 1. rewrite Hs. simpl Py.lstrip. rewrite Hc, <- Hs.
  apply rstrip_rstrip.
Qed.

(** ** The getters *)

Lemma dict_setitem_keys k v (d : list (string * string)) :
  map fst (dict_setitem k v d)
  = if decide (k ∈ map fst d) then map fst d else map fst d ++ [k].
Proof.
  induction d as [|[k0 v0] d IH].
  - destruct (decide (k ∈ map fst [])) as [Hin|_]; [|done].
    by apply elem_of_nil in Hin.
  - cbn [dict_setitem].
    destruct (String.eqb_spec k0 k) as [->|Hne].
    + destruct (decide (k ∈ map fst ((k, v0) :: d))) as [_|Hnin]; [done|].
      destruct Hnin. by left.
    + cbn [map fst]. rewrite IH.
      destruct (decide (k ∈ map fst d)) as [Hin|Hnin],
               (decide (k ∈ k0 :: map fst d)) as [Hin'|Hnin']; try done.
      * destruct Hnin'. by right.
      * apply elem_of_cons in Hin' as [?|?]; [congruence | done].
Qed.

Lemma dict_of_pairs_keys (l : list (string * string)) :
  NoDup (map fst (dict_of_pairs l)) /\
  (forall k, k ∈ map fst (dict_of_pairs l) -> k ∈ map fst l) /\
  length (dict_of_pairs l) <= length l.
Proof.
  induction l as [|[k v] l (Hnodup & Hsub & Hlen)] using rev_ind.
  - split_and!; [constructor | done | done].
  - rewrite dict_of_pairs_snoc.
    assert (length (dict_setitem k v (dict_of_pairs l))
            = length (map fst (dict_setitem k v (dict_of_pairs l)))) as Hl
      by (by rewrite length_map).
    rewrite Hl, dict_setitem_keys, map_app, length_app. simpl.
    destruct (decide (k ∈ map fst (dict_of_pairs l))) as [Hin|Hnin].
    + split_and!; [done | | rewrite length_map; lia].
      intros k' Hk'. apply elem_of_app. left. by apply Hsub.
    + split_and!.
      * apply NoDup_app. split_and!; [done | | apply NoDup_singleton].
        intros k' Hk' ->%list_elem_of_singleton. done.
      * intros k' [Hk'| ->%list_elem_of_singleton]%elem_of_app;
          apply elem_of_app; [left; by apply Hsub | right; by left].
      * rewrite length_app, length_map. simpl. lia.
Qed.

(** X4. Whatever the cells of the table hold, the dictionary read from it
    has no key twice, no key with whitespace at its ends, and at most
    one entry for each row. *)
Theorem dictionary_keys_trimmed_distinct (self : QTableWidget) :
  let d := DictionaryTable.dictionary self in
  NoDup (map fst d) /\
  (forall k, k ∈ map fst d -> Py.strip k = k) /\
  length d <= Qt.rowCount self.
Proof.
  unfold DictionaryTable.dictionary.
  set (pairs := map _ (map _ (map _ (seq 0 (Qt.rowCount self))))).
  destruct (dict_of_pairs_keys pairs) as (Hnodup & Hsub & Hlen).
  split_and!; [done | |].
  - intros k Hk%Hsub. unfold pairs in Hk. rewrite map_map in Hk.
    apply list_elem_of_fmap in Hk as (kv & -> & _). simpl. apply strip_strip.
  - unfold pairs in Hlen. by rewrite !length_map, length_seq in Hlen.
Qed.

(** X5. Whatever the cells of the table hold, every string read from the
    string-list table is trimmed, and there is at most one for each
    row. *)
Theorem values_trimmed (self : QTableWidget) :
  Forall (fun v => Py.strip v = v) (StringListTable.values self) /\
  length (StringListTable.values self) <= Qt.rowCount self.
Proof.
  unfold StringListTable.values.
  set (items := map _ (seq 0 (Qt.rowCount self))).
  assert (length items = Qt.rowCount self) as <-
    by (unfold items; by rewrite length_map, length_seq).
  clearbody items. induction items as [|[text|] items [IH1 IH2]]; cbn.
  - split; [constructor | done].
  - split; [constructor; [apply strip_strip | done] | lia].
  - split; [done | lia].
Qed.

(** ** Rows added, removed and pasted into *)

Lemma table_eta (self : QTableWidget) :
  mkTable (columnCount self) (rows self) = self.
Proof. by destruct self. Qed.

Lemma rows_grown (self : QTableWidget) :
  Qt.setRowCount (Qt.rowCount self + 1) self
  = mkTable (columnCount self) (rows self ++ [fun _ => None]).
Proof.
  unfold Qt.setRowCount, Qt.rowCount. rewrite resize_ge by lia.
  by replace (length (rows self) + 1 - length (rows self)) with 1 by lia.
Qed.

Lemma setItem_last cc l g c it :
  exists g',
    Qt.setItem (length l) c it (mkTable cc (l ++ [g])) = mkTable cc (l ++ [g']) /\
    (forall c', g' c' = if decide (c' = c /\ c < cc) then Some it else g c').
Proof.
  unfold Qt.setItem. simpl. destruct (Nat.ltb_spec c cc) as [Hlt|Hge].
  - eexists. split.
    + rewrite alter_app_r_alt by lia. rewrite Nat.sub_diag. reflexivity.
    + intros c'. simpl. destruct (Nat.eqb_spec c' c) as [->|Hne].
      * by rewrite decide_True.
      * rewrite decide_False; [done | by intros [? _]].
  - exists g. split; [done|]. intros c'. rewrite decide_False; [done | lia].
Qed.

Lemma item_snoc cc l g r c :
  Qt.item r c (mkTable cc (l ++ [g])) =
    if decide (r < length l) then Qt.item r c (mkTable cc l)
    else if decide (r = length l) then (if c <? cc then g c else None)
    else None.
Proof.
  unfold Qt.item. simpl. destruct (c <? cc); [|by repeat case_decide].
  destruct (decide (r < length l)) as [Hlt|Hge].
  - by rewrite lookup_app_l.
  - rewrite lookup_app_r by lia. destruct (decide (r = length l)) as [->|Hne].
    + by rewrite Nat.sub_diag.
    + destruct (r - length l) as [|k] eqn:E; [lia | done].
Qed.

Lemma map_range_ext {B} (f g : nat -> B) n :
  (forall r, r < n -> f r = g r) -> map f (seq 0 n) = map g (seq 0 n).
Proof. intros H. apply List.map_ext_in. intros r Hr%List.in_seq. apply H. lia. Qed.

(** The table after [add_row] of the dictionary table. *)
Lemma DictionaryTable_add_row_rows (self : QTableWidget) :
  exists g,
    DictionaryTable.add_row self = mkTable (columnCount self) (rows self ++ [g]) /\
    (columnCount self = 2 -> g 0 = Some EmptyString /\ g 1 = Some EmptyString).
Proof.
  unfold DictionaryTable.add_row. rewrite rows_grown. unfold Qt.rowCount.
  destruct (setItem_last (columnCount self) (rows self) (fun _ => None) 0 "")
    as (g0 & -> & Hg0).
  destruct (setItem_last (columnCount self) (rows self) g0 1 "")
    as (g1 & -> & Hg1).
  exists g1. split; [done|]. intros Hcol.
  rewrite !Hg1, !Hg0, Hcol. split; by repeat case_decide; try lia.
Qed.

Lemma StringListTable_add_row_rows (self : QTableWidget) :
  exists g,
    StringListTable.add_row self = mkTable (columnCount self) (rows self ++ [g]) /\
    (columnCount self = 1 -> g 0 = Some EmptyString).
Proof.
  unfold StringListTable.add_row. rewrite rows_grown. unfold Qt.rowCount.
  destruct (setItem_last (columnCount self) (rows self) (fun _ => None) 0 "")
    as (g0 & -> & Hg0).
  exists g0. split; [done|]. intros Hcol.
  rewrite Hg0, Hcol. by rewrite decide_True by lia.
Qed.

(** X6. Add row on the dictionary table appends one row with the empty
    key and the empty value: the dictionary read afterwards is the one
    read before with [""] set to [""] (an entry of a blank key that was
    there is overwritten). *)
Theorem DictionaryTable_add_row_dictionary (self : QTableWidget) :
  columnCount self = 2 ->
  Qt.rowCount (DictionaryTable.add_row self) = Qt.rowCount self + 1 /\
  DictionaryTable.dictionary (DictionaryTable.add_row self)
    = dict_setitem "" "" (DictionaryTable.dictionary self).
Proof.
  intros Hcol.
  destruct (DictionaryTable_add_row_rows self) as (g & Hadd & Hg).
  destruct (Hg Hcol) as [Hg0 Hg1]. rewrite Hadd.
  unfold DictionaryTable.dictionary, Qt.rowCount. simpl rows.
  rewrite length_app. simpl length. split; [done|].
  replace (length (rows self) + 1) with (S (length (rows self))) by lia.
  rewrite seq_S, !map_app. cbn [map fst snd]. rewrite dict_of_pairs_snoc.
  rewrite !item_snoc, Hg0, Hg1, Hcol.
  rewrite !(decide_False (P := _ < _)) by lia.
  rewrite !(decide_True (P := _ = _)) by done. simpl.
  do 4 f_equal. apply map_range_ext. intros r Hr.
  rewrite !item_snoc, !decide_True by done. by rewrite <- Hcol, table_eta.
Qed.

Lemma DictionaryTable_add_row_dictionary_witness :
  let self := DictionaryTable.__init__ (Some [("", "x"); ("P", "1")]) in
  columnCount self = 2 /\
  DictionaryTable.dictionary (DictionaryTable.add_row self)
    = [("", ""); ("P", "1")].
Proof.
  intros self. split; [reflexivity|].
  rewrite (proj2 (DictionaryTable_add_row_dictionary self eq_refl)). reflexivity.
Defined.

(** X7. Add row on the string-list table appends one empty string to the
    list read from it. *)
Theorem StringListTable_add_row_values (self : QTableWidget) :
  columnCount self = 1 ->
  Qt.rowCount (StringListTable.add_row self) = Qt.rowCount self + 1 /\
  StringListTable.values (StringListTable.add_row self)
    = StringListTable.values self ++ [EmptyString].
Proof.
  intros Hcol.
  destruct (StringListTable_add_row_rows self) as (g & Hadd & Hg).
  specialize (Hg Hcol). rewrite Hadd.
  unfold StringListTable.values, Qt.rowCount. simpl rows.
  rewrite length_app. simpl length. split; [done|].
  replace (length (rows self) + 1) with (S (length (rows self))) by lia.
  rewrite seq_S, map_app, omap_app. cbn [map]. simpl "+".
  rewrite item_snoc, Hg, Hcol.
  rewrite decide_False by lia. rewrite decide_True by done. cbn.
  f_equal. f_equal. apply map_range_ext. intros r Hr.
  unfold Qt.item. rewrite Hcol. simpl. by rewrite lookup_app_l.
Qed.

Lemma StringListTable_add_row_values_witness :
  exists self,
    values_roundtrip (PyList [PyStr "a.ui"]) (StringListTable.__init__ PyNone)
      = Ok ["a.ui"] /\
    StringListTable.set_values (PyList [PyStr "a.ui"]) (StringListTable.__init__ PyNone)
      = Ok self /\
    StringListTable.values (StringListTable.add_row self) = ["a.ui"; ""].
Proof.
  eexists. split_and!; [reflexivity | reflexivity |].
  match goal with
  | |- StringListTable.values (StringListTable.add_row ?t) = _ =>
      rewrite (proj2 (StringListTable_add_row_values t eq_refl))
  end.
  reflexivity.
Defined.

(** X8. Add row and then Delete row on the row just added give back the
    table as it was, cell for cell, in both tables and whatever the
    table held. *)
Theorem add_row_delete_row_restores (self : QTableWidget) :
  DictionaryTable.delete_row (Qt.rowCount self) (DictionaryTable.add_row self) = self /\
  StringListTable.delete_row (Qt.rowCount self) (StringListTable.add_row self) = self.
Proof.
  unfold DictionaryTable.delete_row, StringListTable.delete_row, Qt.removeRow.
  destruct (DictionaryTable_add_row_rows self) as (g & -> & _).
  destruct (StringListTable_add_row_rows self) as (g' & -> & _).
  unfold Qt.rowCount. simpl.
  rewrite !delete_middle, !app_nil_r. split; apply table_eta.
Qed.

Lemma item_in_table r c self text :
  Qt.item r c self = Some text -> r < Qt.rowCount self /\ c < columnCount self.
Proof.
  unfold Qt.item, Qt.rowCount. destruct (Nat.ltb_spec c (columnCount self)); [|done].
  destruct (rows self !! r) as [row|] eqn:E; [|done].
  apply lookup_lt_Some in E. done.
Qed.

(** X9. Paste writes the clipboard text into the cell under the pointer
    and nowhere else: that cell reads the pasted text, every other cell
    reads as before, and the number of rows stays; where the pointer is
    over no item, nothing changes. *)
Theorem paste_changes_one_cell r c clipboard_text (self : QTableWidget) :
  Qt.rowCount (DictionaryTable.paste r c clipboard_text self) = Qt.rowCount self /\
  (forall r' c',
     Qt.item r' c' (DictionaryTable.paste r c clipboard_text self) =
       if decide (r' = r /\ c' = c /\ is_Some (Qt.item r c self))
       then Some clipboard_text else Qt.item r' c' self) /\
  (Qt.item r c self = None ->
   DictionaryTable.paste r c clipboard_text self = self) /\
  StringListTable.paste r c clipboard_text self
    = DictionaryTable.paste r c clipboard_text self.
Proof.
  unfold DictionaryTable.paste, StringListTable.paste.
  destruct (Qt.item r c self) as [text|] eqn:E.
  - apply item_in_table in E as [Hr Hc].
    split_and!; [apply rowCount_setItem | | done | done].
    intros r' c'. rewrite item_setItem.
    destruct (decide (r' = r /\ c' = c)) as [[-> ->]|Hne].
    + rewrite !decide_True; [done | by eauto | done].
    + rewrite !decide_False; [done | tauto | tauto].
  - split_and!; [done | | done | done].
    intros r' c'. rewrite decide_False; [done|]. intros (_ & _ & [? ?]). done.
Qed.

Lemma paste_changes_one_cell_witness :
  let self := DictionaryTable.__init__ (Some [("P", "1"); ("Q", "2")]) in
  Qt.item 5 0 self = None /\
  DictionaryTable.paste 5 0 "DEV" self = self /\
  DictionaryTable.dictionary (DictionaryTable.paste 1 1 "DEV" self)
    = [("P", "1"); ("Q", "DEV")].
Proof.
  intros self. split; [reflexivity|]. split; [|reflexivity].
  exact (proj1 (proj2 (proj2 (paste_changes_one_cell 5 0 "DEV" self))) eq_refl).
Defined.

(** X10. The context menu always ends with Add row.  Copy, Paste and
    Delete row are offered only over an item, and then each does what it
    says: Copy is labelled with the text of the item and leaves the table
    alone, Paste is labelled with the clipboard text and sets the item to
    it, Delete row removes exactly one row.  Over no item the menu is the
    separator and Add row. *)
Theorem context_menu_entries (add_row : QTableWidget -> QTableWidget)
    r c clipboard_text (self : QTableWidget) :
  let menu := _context_menu r c clipboard_text self in
  last menu = Some MenuAddRow /\
  (forall text,
     MenuCopy text ∈ menu ->
     Qt.item r c self = Some text /\
     menu_label (MenuCopy text) = Some ("&Copy: " +:+ text) /\
     menu_triggered add_row r c (MenuCopy text) self = self) /\
  (forall text,
     MenuPaste text ∈ menu ->
     text = clipboard_text /\
     Qt.item r c (menu_triggered add_row r c (MenuPaste text) self)
       = Some clipboard_text) /\
  (forall row,
     MenuDeleteRow row ∈ menu ->
     row = r /\
     Qt.rowCount (menu_triggered add_row r c (MenuDeleteRow row) self) + 1
       = Qt.rowCount self) /\
  (Qt.item r c self = None -> menu = [MenuSeparator; MenuAddRow]).
Proof.
  unfold _context_menu. destruct (Qt.item r c self) as [text0|] eqn:E; simpl.
  - apply item_in_table in E as Hin. destruct Hin as [Hr Hc].
    split_and!; [done | | | | done].
    + intros text Hm. repeat (apply elem_of_cons in Hm as [Hm|Hm]; try done).
      * by injection Hm as ->.
      * by apply elem_of_nil in Hm.
    + intros text Hm. repeat (apply elem_of_cons in Hm as [Hm|Hm]; try done).
      * injection Hm as ->. split; [done|].
        rewrite item_setItem. by rewrite decide_True.
      * by apply elem_of_nil in Hm.
    + intros row Hm. repeat (apply elem_of_cons in Hm as [Hm|Hm]; try done).
      * injection Hm as ->. split; [done|].
        unfold Qt.removeRow, Qt.rowCount in *. simpl.
        rewrite length_delete by (by apply lookup_lt_is_Some). lia.
      * by apply elem_of_nil in Hm.
  - split_and!; [done | | | | done].
    + intros text Hm. repeat (apply elem_of_cons in Hm as [Hm|Hm]; try done).
      by apply elem_of_nil in Hm.
    + intros text Hm. repeat (apply elem_of_cons in Hm as [Hm|Hm]; try done).
      by apply elem_of_nil in Hm.
    + intros row Hm. repeat (apply elem_of_cons in Hm as [Hm|Hm]; try done).
      by apply elem_of_nil in Hm.
Qed.

Lemma context_menu_entries_witness :
  let self := DictionaryTable.__init__ (Some [("P", "1"); ("Q", "2")]) in
  _context_menu 1 0 "DEV" self
    = [MenuCopy "Q"; MenuPaste "DEV"; MenuDeleteRow 1; MenuSeparator; MenuAddRow] /\
  Qt.rowCount
    (menu_triggered DictionaryTable.add_row 1 0 (MenuDeleteRow 1) self) + 1
    = Qt.rowCount self /\
  _context_menu 2 0 "DEV" self = [MenuSeparator; MenuAddRow].
Proof.
  intros self.
  destruct (context_menu_entries DictionaryTable.add_row 1 0 "DEV" self)
    as (_ & _ & _ & Hdelete & _).
  destruct (context_menu_entries DictionaryTable.add_row 2 0 "DEV" self)
    as (_ & _ & _ & _ & Hnone).
  split_and!; [reflexivity | | exact (Hnone eq_refl)].
  apply (Hdelete 1). vm_compute. right. right. left.
Defined.

(** ** The shape of a label *)

Lemma lower_char_not_AZ c : Py.is_AZ (Py.lower_char c) = false.
Proof. by destruct c as [[] [] [] [] [] [] [] []]. Qed.

Lemma upper_char_not_az c : Py.is_az (Py.upper_char c) = false.
Proof. by destruct c as [[] [] [] [] [] [] [] []]. Qed.

Lemma isspace_lower_char c : Py.isspace (Py.lower_char c) = Py.isspace c.
Proof. by destruct c as [[] [] [] [] [] [] [] []]. Qed.

Lemma isspace_upper_char c : Py.isspace (Py.upper_char c) = Py.isspace c.
Proof. by destruct c as [[] [] [] [] [] [] [] []]. Qed.

Lemma upper_char_upper_char c : Py.upper_char (Py.upper_char c) = Py.upper_char c.
Proof. by destruct c as [[] [] [] [] [] [] [] []]. Qed.

Lemma no_AZ_lower s : no_AZ (Py.lower s) = true.
Proof.
  induction s as [|c r IH]; [done|]. simpl.
  by rewrite lower_char_not_AZ, IH.
Qed.

Lemma lower_no_AZ s : no_AZ s = true -> Py.lower s = s.
Proof.
  induction s as [|c r IH]; [done|]. simpl.
  intros [Hc Hr]%andb_true_iff. apply negb_true_iff in Hc.
  unfold Py.lower_char. by rewrite Hc, IH.
Qed.

Lemma sub_dot_AZ_no_AZ r : forall c,
  no_AZ r = true -> Py.sub_dot_AZ (String c r) = String c r.
Proof.
  induction r as [|d r IH]; intros c; [done|].
  intros [Hd Hr]%andb_true_iff. apply negb_true_iff in Hd.
  cbn [Py.sub_dot_AZ]. rewrite Hd, andb_false_r. f_equal. by apply IH.
Qed.

Lemma last_char_lower r : last_char (Py.lower r) = Py.lower_char <$> last_char r.
Proof.
  induction r as [|c r IH]; [done|]. simpl. rewrite IH.
  by destruct (last_char r).
Qed.

(** A string that starts and ends with characters that are not
    whitespace is its own [strip]. *)
Lemma strip_ends c r :
  Py.isspace c = false ->
  (forall x, last_char (String c r) = Some x -> Py.isspace x = false) ->
  Py.strip (String c r) = String c r.
Proof.
  intros Hc Hlast. unfold Py.strip. simpl Py.lstrip. rewrite Hc.
  by apply rstrip_last.
Qed.

Lemma strip_last s x : last_char (Py.strip s) = Some x -> Py.isspace x = false.
Proof.
  apply (proj1 (rstrip_last (Py.strip s))). unfold Py.strip. apply rstrip_rstrip.
Qed.

Lemma capitalize_strip_shape s :
  Py.capitalize (Py.strip s) = EmptyString \/
  exists c r,
    Py.capitalize (Py.strip s) = String (Py.upper_char c) (Py.lower r) /\
    Py.strip (String (Py.upper_char c) (Py.lower r))
      = String (Py.upper_char c) (Py.lower r).
Proof.
  destruct (strip_starts s) as [->|(c & r & Hs & Hc)]; [by left|].
  right. exists c, r. rewrite Hs. split; [done|].
  apply strip_ends; [by rewrite isspace_upper_char|].
  intros x Hx. pose proof (strip_last s) as Hlast. rewrite Hs in Hlast.
  simpl in Hx, Hlast. rewrite last_char_lower in Hx.
  destruct (last_char r) as [y|]; simpl in Hx.
  - injection Hx as <-. rewrite isspace_lower_char. by apply Hlast.
  - injection Hx as <-. rewrite isspace_upper_char. by apply Hlast.
Qed.

(** X11. The label of a name of characters below 128 has no whitespace at
    its ends, does not start with a lower-case letter, and has no
    capital letter after its first character. *)
Theorem label_text_shape (attr : string) :
  all_ascii attr = true ->
  let label := get_helper_label_text attr in
  Py.strip label = label /\
  forall c r, label = String c r -> Py.is_az c = false /\ no_AZ r = true.
Proof.
  intros _ label. unfold label, get_helper_label_text.
  destruct (capitalize_strip_shape (Py.sub_dot_AZ attr))
    as [->|(c & r & -> & Hstrip)]; [done|].
  split; [done|]. intros c' r' [= <- <-].
  by rewrite upper_char_not_az, no_AZ_lower.
Qed.

Lemma label_text_shape_witness :
  all_ascii " alarmSensitiveContent" = true /\
  get_helper_label_text " alarmSensitiveContent" = "Alarm sensitive content" /\
  no_AZ "larm sensitive content" = true.
Proof.
  split; [reflexivity|]. split; [reflexivity|].
  exact (proj2 (proj2 (label_text_shape " alarmSensitiveContent" eq_refl)
                  "A"%char "larm sensitive content" eq_refl)).
Defined.

(** X12. A label is left as it is by the derivation: the label of a label
    is that label (names of characters below 128). *)
Theorem label_text_of_label (attr : string) :
  all_ascii attr = true ->
  get_helper_label_text (get_helper_label_text attr) = get_helper_label_text attr.
Proof.
  intros _. unfold get_helper_label_text at 2 3.
  destruct (capitalize_strip_shape (Py.sub_dot_AZ attr))
    as [->|(c & r & -> & Hstrip)]; [done|].
  unfold get_helper_label_text.
  rewrite sub_dot_AZ_no_AZ by apply no_AZ_lower.
  rewrite Hstrip. simpl.
  by rewrite upper_char_upper_char, (lower_no_AZ _ (no_AZ_lower r)).
Qed.

Lemma label_text_of_label_witness :
  all_ascii "precisionFromPV" = true /\
  get_helper_label_text (get_helper_label_text "precisionFromPV")
    = "Precision from pv".
Proof.
  split; [reflexivity|].
  rewrite (label_text_of_label "precisionFromPV" eq_refl). reflexivity.
Defined.

(** ** The form and the user's actions *)

(** X13. The form of a newly opened dialog has one row for each helper,
    in the order of the helpers, and the label of a row is ["&"]
    followed by the label text of the helper's property name. *)
Theorem form_rows_label_helpers
    (parse_macro_string : pyval -> result (list (string * string))) w :
  exists self w',
    __init__ parse_macro_string w = (Ok self, w') /\
    length (settings_form self) = length (property_widgets self) /\
    settings_form self
      = map (fun n => "&" +:+ get_helper_label_text n) (editor_names self).
Proof.
  unfold __init__, _create_helper_widgets, the_widget.
  destruct (create_helpers_ok parse_macro_string (widget_type (widget w))
              (loop_attrs (widget_type (widget w))) w)
    as (rows & l' & Hrows & _ & Hlabels).
  eexists _, _. unfold bind at 1. unfold bind at 1. rewrite Hrows. unfold ret.
  split; [done|]. unfold editor_names. simpl.
  split; [by rewrite !length_map|].
  by rewrite Hlabels, !map_map.
Qed.

Lemma alter_edit_names a self :
  editor_names
    {| property_widgets :=
         alter (fun h => {| _property_name := _property_name h;
                            helper_control := edit_control a (helper_control h) |})
               (action_index a) (property_widgets self);
       settings_form := settings_form self;
       state := state self |}
  = editor_names self.
Proof.
  unfold editor_names. cbn [property_widgets].
  apply list_eq. intros j. rewrite !list_lookup_fmap.
  destruct (decide (j = action_index a)) as [->|Hne].
  - rewrite list_lookup_alter_eq.
    by destruct (property_widgets self !! action_index a).
  - by rewrite list_lookup_alter_ne.
Qed.

Lemma user_step_keeps a self w :
  exists self',
    user_step a self w
      = (Ok self', {| widget := rules_editor_writes self [a] (widget w);
                      log := log w |}) /\
    editor_names self' = editor_names self /\
    helper_classes self' = helper_classes self /\
    settings_form self' = settings_form self /\
    state self' = state self.
Proof.
  assert (forall w0 : World, {| widget := widget w0; log := log w0 |} = w0) as Heta
    by (by intros []).
  destruct a as [i b|i s|i z|i r c s|i|i r|i rules_editor];
    try (eexists; unfold user_step, ret; cbn [rules_editor_writes];
         rewrite Heta;
         split_and!; [done | apply alter_edit_names | apply alter_edit_classes
                     | done | done]).
  unfold user_step. cbn [rules_editor_writes].
  destruct (opens_rules_editor self (OpenRulesEditor i rules_editor)).
  - exists self. by unfold _open_rules_editor, bind, ret.
  - exists self. by unfold ret; rewrite Heta.
Qed.

Lemma user_steps_keep acts : forall self w,
  exists self',
    user_steps acts self w
      = (Ok self', {| widget := rules_editor_writes self acts (widget w);
                      log := log w |}) /\
    editor_names self' = editor_names self /\
    helper_classes self' = helper_classes self /\
    settings_form self' = settings_form self /\
    state self' = state self.
Proof.
  induction acts as [|a acts IH]; intros self w.
  - exists self. simpl. unfold ret. by destruct w.
  - destruct (user_step_keeps a self w) as (self1 & Hstep & Hn1 & Hc1 & Hf1 & Hs1).
    destruct (IH self1 {| widget := rules_editor_writes self [a] (widget w);
                           log := log w |})
      as (self' & Hsteps & Hn & Hc & Hf & Hs).
    exists self'. simpl user_steps. unfold bind at 1. rewrite Hstep, Hsteps.
    simpl. rewrite (rules_editor_writes_classes self1 self acts _ Hc1).
    split_and!; [done | congruence..].
Qed.

(** ** What Save writes *)

Lemma same_but_refl names t : same_but names t t.
Proof. by unfold same_but. Qed.

Lemma same_but_trans names t1 t2 t3 :
  same_but names t1 t2 -> same_but names t2 t3 -> same_but names t1 t3.
Proof.
  unfold same_but. intros (?&?&?&?&?&?&H12) (?&?&?&?&?&?&H23).
  split_and!; try congruence. intros name Hn. by rewrite H23, H12.
Qed.

Lemma same_but_set names n v t :
  n ∈ names -> same_but names t (set_attribute n v t).
Proof.
  intros Hn. unfold same_but. simpl. split_and!; try done.
  intros name Hname. apply lookup_insert_ne. by intros ->.
Qed.

Lemma same_but_write_raises names t t' :
  same_but names t t' -> write_raises t' = write_raises t.
Proof. unfold same_but, write_raises. intros (?&?&?&->&->&->&?). done. Qed.

Section save_writes.

Variable json_dumps : list (string * string) -> string.

Lemma save_one_read_fails helper e w :
  saved_value json_dumps helper = Raise e ->
  save_one json_dumps helper w = (Raise e, w).
Proof.
  intros Hread. unfold save_one, save_settings. unfold_monad. by rewrite Hread.
Qed.

Lemma save_one_same_but names helper w :
  _property_name helper ∈ names ->
  same_but names (widget w) (widget (final_world (save_one json_dumps helper) w)).
Proof.
  intros Hn. unfold final_world.
  destruct (saved_value json_dumps helper) as [value|e] eqn:Hread.
  - rewrite (save_one_read_ok json_dumps helper value w Hread). simpl.
    destruct value as [[| | |]|];
      try apply same_but_refl;
      destruct (write_raises (widget w)); simpl;
      first [apply same_but_refl | by apply same_but_set].
  - rewrite (save_one_read_fails helper e w Hread). apply same_but_refl.
Qed.

Lemma save_loop_same_but names (l : list Helper) :
  (forall h, h ∈ l -> _property_name h ∈ names) ->
  forall w,
    same_but names (widget w)
      (widget (final_world (for_each l (save_one json_dumps)) w)).
Proof.
  induction l as [|x l IH]; intros Hnames w.
  - apply same_but_refl.
  - pose proof (save_one_same_but names x w (Hnames x ltac:(by left))) as Hx.
    unfold final_world in *. simpl. unfold bind.
    destruct (save_one json_dumps x w) as [[[]|e] w1]; simpl in *; [|done].
    eapply same_but_trans; [exact Hx|].
    apply IH. intros h Hh. apply Hnames. by right.
Qed.

(** X15. Save changes nothing of the target but the values of the
    attributes the dialog has an editor for: every other attribute, the
    name, the class and the accessors of the target are as before,
    whether or not a read or a write fails on the way. *)
Theorem save_changes_frame self w :
  same_but (editor_names self) (widget w)
    (widget (final_world (save_changes json_dumps self) w)).
Proof.
  pose proof (save_loop_same_but (editor_names self) (property_widgets self)
                ltac:(intros h Hh; by apply (list_elem_of_fmap_2 _property_name)) w)
    as Hloop.
  unfold final_world in *. unfold save_changes, bind, ret.
  by destruct (for_each (property_widgets self) (save_one json_dumps) w)
    as [[[]|e] w1].
Qed.

Lemma save_fold_same_but names (l : list Helper) :
  (forall h, h ∈ l -> _property_name h ∈ names) ->
  forall w,
    same_but names (widget w)
      (widget (fold_left (fun w h => final_world (save_one json_dumps h) w) l w)).
Proof.
  induction l as [|x l IH]; intros Hnames w; simpl.
  - apply same_but_refl.
  - eapply same_but_trans.
    + apply (save_one_same_but names x w). apply Hnames. by left.
    + apply IH. intros h Hh. apply Hnames. by right.
Qed.

Lemma save_fold_delivers (l : list Helper) : forall w,
  NoDup (map _property_name l) ->
  (forall h, h ∈ l -> exists value, saved_value json_dumps h = Ok value) ->
  forall h value,
    h ∈ l ->
    saved_value json_dumps h = Ok value ->
    value <> Atom PyNone ->
    attributes
      (widget (fold_left (fun w h => final_world (save_one json_dumps h) w) l w))
      !! _property_name h
    = match write_raises (widget w) (_property_name h) value with
      | None => Some value
      | Some _ => attributes (widget w) !! _property_name h
      end.
Proof.
  induction l as [|x l IH]; intros w Hnodup Hreads h value Hin Hvalue Hnone.
  - by apply elem_of_nil in Hin.
  - simpl in Hnodup. apply NoDup_cons in Hnodup as [Hx Hnodup].
    cbn [fold_left].
    set (w1 := final_world (save_one json_dumps x) w).
    pose proof (save_one_same_but [_property_name x] x w ltac:(by left)) as Hw1.
    fold w1 in Hw1.
    apply elem_of_cons in Hin as [->|Hin].
    + pose proof (save_fold_same_but (map _property_name l) l
                    ltac:(intros h' Hh'; by apply (list_elem_of_fmap_2 _property_name))
                    w1) as (_&_&_&_&_&_&Hframe).
      rewrite (Hframe _ Hx). unfold w1, final_world.
      rewrite (save_one_read_ok json_dumps x value w Hvalue). simpl.
      destruct value as [[| | |]|]; try done;
        destruct (write_raises (widget w)); simpl; try done;
        by rewrite lookup_insert_eq.
    + rewrite (IH w1 Hnodup ltac:(intros h' Hh'; apply Hreads; by right)
                 h value Hin Hvalue Hnone).
      rewrite (same_but_write_raises _ _ _ Hw1).
      destruct Hw1 as (_&_&_&_&_&_&Hframe).
      rewrite Hframe; [done|].
      intros Heq%list_elem_of_singleton. apply Hx. rewrite <- Heq.
      by apply (list_elem_of_fmap_2 _property_name).
Qed.

(** X16. When the editors of the dialog are for distinct properties and
    the value of each can be read, Save is accepted and delivers every
    value that is not [None]: afterwards the property holds the value of
    its editor, or, where writing it raised, what it held before. *)
Theorem save_changes_delivers self w :
  NoDup (editor_names self) ->
  (forall h, h ∈ property_widgets self ->
             exists value, saved_value json_dumps h = Ok value) ->
  outcome (save_changes json_dumps self) w = Ok (set_state Accepted self) /\
  forall h value,
    h ∈ property_widgets self ->
    saved_value json_dumps h = Ok value ->
    value <> Atom PyNone ->
    attributes (widget (final_world (save_changes json_dumps self) w))
      !! _property_name h
    = match write_raises (widget w) (_property_name h) value with
      | None => Some value
      | Some _ => attributes (widget w) !! _property_name h
      end.
Proof.
  intros Hnodup Hreads. unfold outcome, final_world.
  rewrite (save_changes_write_failures_absorbed json_dumps self w Hreads). simpl.
  split; [done|]. intros h value Hin Hvalue Hnone.
  by apply save_fold_delivers.
Qed.

End save_writes.

Lemma save_changes_delivers_witness :
  let self :=
    {| property_widgets :=
         [ {| _property_name := "channel"; helper_control := QLineEdit " ca://X " |};
           {| _property_name := "precision"; helper_control := QSpinBox 3 |};
           {| _property_name := "rules"; helper_control := QPushButton |} ];
       settings_form := ["&Channel"; "&Precision"; "&Rules"];
       state := Open |} in
  let w := world_of (plain_widget rules_class ∅) in
  attributes (widget (final_world (save_changes sample_json_dumps self) w))
    !! "channel" = Some (Atom (PyStr "ca://X")).
Proof.
  intros self w.
  assert (NoDup (editor_names self)) as Hnodup.
  { apply (bool_decide_unpack _). by vm_compute. }
  assert (forall h, h ∈ property_widgets self ->
                    exists value, saved_value sample_json_dumps h = Ok value) as Hreads.
  { intros h Hh. unfold self in Hh. cbn [property_widgets] in Hh.
    repeat (apply elem_of_cons in Hh as [->|Hh]; [by eexists|]).
    by apply elem_of_nil in Hh. }
  destruct (save_changes_delivers sample_json_dumps self w Hnodup Hreads) as [_ Hd].
  apply (Hd {| _property_name := "channel"; helper_control := QLineEdit " ca://X " |}
            (Atom (PyStr "ca://X"))).
  - by left.
  - reflexivity.
  - discriminate.
Defined.

(** ** A whole session that ends with Save *)

Section saved_sessions.

Variable parse_macro_string : pyval -> result (list (string * string)).
Variable json_dumps : list (string * string) -> string.

(** X17. A session of the dialog that ends with Save never raises and is
    accepted, whatever the target, the user's actions and the failures
    of the writes.  The dialog ends with the editors it opened with, and
    the target ends as the rule sub-editor left it, but for the values
    of the attributes that have an editor. *)
Theorem saved_session_outcome acts w :
  exists self0 w0 self' w',
    __init__ parse_macro_string w = (Ok self0, w0) /\
    saved_session parse_macro_string json_dumps acts w = (Ok self', w') /\
    state self' = Accepted /\
    editor_names self' = editor_names self0 /\
    same_but (editor_names self0)
      (rules_editor_writes self0 acts (widget w)) (widget w').
Proof.
  destruct (init_ok parse_macro_string w) as (self0 & l0 & Hinit & _ & _).
  destruct (user_steps_keep acts self0
              {| widget := widget w; log := log w ++ l0 |})
    as (self1 & Hsteps & Hnames & Hcls & _ & _).
  simpl in Hsteps.
  pose proof (opened_helpers_readable parse_macro_string json_dumps
                w self0 _ self1 Hinit Hcls) as Hreads.
  eexists self0, _, (set_state Accepted self1), _.
  split; [exact Hinit|].
  split.
  { unfold saved_session. unfold bind at 1. rewrite Hinit.
    unfold bind at 1. rewrite Hsteps.
    by rewrite (save_changes_write_failures_absorbed json_dumps self1 _ Hreads). }
  split_and!; [done | done |].
  rewrite <- Hnames.
  apply (save_fold_same_but json_dumps (editor_names self1) (property_widgets self1)
           ltac:(intros h Hh; by apply (list_elem_of_fmap_2 _property_name))
           {| widget := rules_editor_writes self0 acts (widget w);
              log := log w ++ l0 |}).
Qed.

End saved_sessions.

(** ** Loading a value and saving it back *)

Section load_and_save.

Variable parse_macro_string : pyval -> result (list (string * string)).
Variable json_dumps : list (string * string) -> string.

Lemma set_value_from_widget_raise self value w e w' :
  set_value_from_widget parse_macro_string self value w = (Raise e, w') -> w' = w.
Proof.
  destruct self; simpl; unfold_monad; repeat case_match; by intros [= <-] || done.
Qed.

(** X18. When loading the value that was read raises (a value of a type
    the control does not take), the constructor of the helper does not
    raise: it logs the failure with the value and leaves the control as
    its class constructs it. *)
Theorem load_raise_absorbed cls property_name w e :
  getattr_raises (widget w) property_name = None ->
  let value := default (Atom PyNone) (attributes (widget w) !! property_name) in
  outcome (set_value_from_widget parse_macro_string (new_control cls) value) w
    = Raise e ->
  new_helper parse_macro_string cls property_name w
    = (Ok {| _property_name := property_name; helper_control := new_control cls |},
       {| widget := widget w;
          log := log w ++ [FailedToSetState cls property_name value] |}).
Proof.
  intros Hread value Hload. unfold outcome in Hload.
  destruct (set_value_from_widget parse_macro_string (new_control cls) value w)
    as [r w'] eqn:E.
  simpl in Hload. subst r. apply set_value_from_widget_raise in E as Hw. subst w'.
  unfold new_helper. unfold_monad. rewrite Hread. fold value. by rewrite E.
Qed.

(** X19. A line-edit helper opened on a property and saved without an
    edit writes the string back trimmed; a property that is [None],
    missing or otherwise false is written as the empty string. *)
Theorem line_edit_load_save property_name w s :
  getattr_raises (widget w) property_name = None ->
  py_or (default (Atom PyNone) (attributes (widget w) !! property_name)) (PyStr "")
    = Atom (PyStr s) ->
  write_raises (widget w) property_name (PyStr (Py.strip s)) = None ->
  (helper <- new_helper parse_macro_string PropertyLineEdit property_name ;;
   save_settings json_dumps helper) w
  = (Ok tt,
     {| widget := set_attribute property_name (PyStr (Py.strip s)) (widget w);
        log := log w ++ [Updating (objectName (widget w)) property_name
                           (PyStr (Py.strip s))] |}).
Proof.
  intros Hread Hvalue Hwrite.
  unfold new_helper, save_settings, update_property_for_widget, write_raises in *.
  unfold_monad. rewrite Hread, Hvalue. simpl.
  destruct (formWindow (widget w)); simpl in *; by rewrite Hwrite.
Qed.

(** X20. A string-list helper opened on a property and saved without an
    edit writes back a list of strings, one for each element the value
    iterates over, each stringified and trimmed; a property that is
    [None], missing or otherwise false is written as the empty list. *)
Theorem string_list_load_save property_name w elems :
  getattr_raises (widget w) property_name = None ->
  py_iter (py_or (default (Atom PyNone) (attributes (widget w) !! property_name))
                 (PyList []))
    = Ok elems ->
  let saved := PyList (map (fun v => PyStr (Py.strip (py_str v))) elems) in
  write_raises (widget w) property_name saved = None ->
  (helper <- new_helper parse_macro_string PropertyStringList property_name ;;
   save_settings json_dumps helper) w
  = (Ok tt,
     {| widget := set_attribute property_name saved (widget w);
        log := log w ++ [Updating (objectName (widget w)) property_name saved] |}).
Proof.
  intros Hread Hiter saved Hwrite.
  unfold new_helper, save_settings, update_property_for_widget, write_raises in *.
  unfold_monad. rewrite Hread. unfold StringListTable.set_values. rewrite Hiter.
  simpl. unfold saved_value. simpl.
  destruct (values_filled elems (StringListTable.__init__ PyNone) eq_refl)
    as [_ Hvalues].
  simpl in Hvalues. rewrite Hvalues, map_map. fold saved.
  destruct (formWindow (widget w)); simpl in *; by rewrite Hwrite.
Qed.

(** X21. Only [None] is left unsaved.  A rule editor saves nothing.  Every
    other helper whose value can be read has a value that is not [None],
    and its save step writes it, be it an empty string, [False], zero or
    an empty list. *)
Theorem save_settings_skips_only_none helper w :
  (helper_control helper = QPushButton ->
   save_settings json_dumps helper w = (Ok tt, w)) /\
  (forall value,
     helper_control helper <> QPushButton ->
     saved_value json_dumps helper = Ok value ->
     value <> Atom PyNone /\
     save_settings json_dumps helper w
       = update_property_for_widget (_property_name helper) value w).
Proof.
  unfold save_settings, saved_value. split.
  - intros ->. done.
  - intros value Hrule Hvalue.
    destruct (helper_control helper); try done;
      injection Hvalue as <-; split; done.
Qed.

End load_and_save.

Lemma load_raise_absorbed_witness :
  let w := world_of (plain_widget filenames_class {[ "filenames" := Atom (PyInt 5) ]}) in
  new_helper sample_parse_macro_string PropertyStringList "filenames" w
    = (Ok {| _property_name := "filenames";
             helper_control := StringList (StringListTable.__init__ PyNone) |},
       {| widget := widget w;
          log := [FailedToSetState PropertyStringList "filenames" (PyInt 5)] |}).
Proof.
  intros w.
  exact (load_raise_absorbed sample_parse_macro_string PropertyStringList
           "filenames" w TypeError eq_refl eq_refl).
Defined.

Lemma line_edit_load_save_witness :
  let w := world_of (plain_widget zeta_class ∅) in
  attributes (widget w) !! "channel" = None /\
  attributes
    (widget (final_world
       (helper <- new_helper sample_parse_macro_string PropertyLineEdit "channel" ;;
        save_settings sample_json_dumps helper) w)) !! "channel"
    = Some (Atom (PyStr "")).
Proof.
  intros w. split; [reflexivity|]. unfold final_world.
  rewrite (line_edit_load_save sample_parse_macro_string sample_json_dumps
             "channel" w "" eq_refl eq_refl eq_refl).
  reflexivity.
Defined.

Lemma string_list_load_save_witness :
  let w := world_of (plain_widget filenames_class
                       {[ "filenames" := PyList [PyStr " a.ui "; PyStr ""] ]}) in
  attributes
    (widget (final_world
       (helper <- new_helper sample_parse_macro_string PropertyStringList "filenames" ;;
        save_settings sample_json_dumps helper) w)) !! "filenames"
    = Some (PyList [PyStr "a.ui"; PyStr ""]).
Proof.
  intros w. unfold final_world.
  rewrite (string_list_load_save sample_parse_macro_string sample_json_dumps
             "filenames" w [PyStr " a.ui "; PyStr ""] eq_refl eq_refl eq_refl).
  reflexivity.
Defined.

Lemma save_settings_skips_only_none_witness :
  let w := world_of (plain_widget zeta_class {[ "channel" := Atom (PyStr "ca://X") ]}) in
  let blank := {| _property_name := "channel"; helper_control := QLineEdit "  " |} in
  save_settings sample_json_dumps blank w
    = update_property_for_widget "channel" (PyStr "") w /\
  attributes (widget (final_world (save_settings sample_json_dumps blank) w))
    !! "channel" = Some (Atom (PyStr "")).
Proof.
  intros w blank.
  destruct (proj2 (save_settings_skips_only_none sample_json_dumps blank w)
              (Atom (PyStr "")) ltac:(discriminate) eq_refl) as [_ Hsave].
  split; [exact Hsave|]. unfold final_world. rewrite Hsave. reflexivity.
Defined.

(** ** Discovery: the order of enumeration and the empty dialog *)

Global Instance str_le_antisymm : AntiSymm (=) str_le.
Proof.
  intros s1. unfold str_le.
  induction s1 as [|a r1 IH]; intros [|b r2]; simpl; try done.
  destruct (Nat.ltb_spec (nat_of_ascii a) (nat_of_ascii b)),
           (Nat.ltb_spec (nat_of_ascii b) (nat_of_ascii a)); try lia.
  - destruct (Nat.eqb_spec (nat_of_ascii b) (nat_of_ascii a)); [lia | done].
  - destruct (Nat.eqb_spec (nat_of_ascii a) (nat_of_ascii b)); [lia | done].
  - assert (nat_of_ascii a = nat_of_ascii b) as Hab by lia.
    rewrite Hab, Nat.eqb_refl. intros H1 H2.
    f_equal; [|by apply IH].
    by rewrite <- (ascii_nat_embedding a), Hab, ascii_nat_embedding.
Qed.

Lemma sorted_Permutation (l1 l2 : list string) :
  l1 ≡ₚ l2 -> sorted l1 = sorted l2.
Proof.
  intros Hperm.
  destruct (sorted_spec l1) as [Hs1 Hp1]. destruct (sorted_spec l2) as [Hs2 Hp2].
  apply (StronglySorted_unique str_le); [done..|].
  by rewrite Hp1, Hp2.
Qed.

Lemma loop_attrs_Permutation cls1 cls2 :
  staticMetaObject cls1 ≡ₚ staticMetaObject cls2 ->
  loop_attrs cls1 = loop_attrs cls2.
Proof.
  intros Hperm. unfold loop_attrs, other_attrs, get_qt_properties.
  do 2 f_equal. apply sorted_Permutation. by rewrite Hperm.
Qed.

Lemma helper_cls_for_attributes cls1 cls2 attr :
  class_attributes cls1 = class_attributes cls2 ->
  helper_cls_for cls1 attr = helper_cls_for cls2 attr.
Proof. unfold helper_cls_for. by intros ->. Qed.

Lemma omap_pointwise {A B} (f g : A -> option B) (l : list A) :
  (forall a, f a = g a) -> omap f l = omap g l.
Proof.
  intros Hfg. induction l as [|a l IH]; [done|]. cbn. by rewrite Hfg, IH.
Qed.

(** X22. The editors of the dialog do not depend on the order in which
    the meta-object lists the properties: two targets whose classes have
    the same attributes and list the same properties, in any order, get
    editors for the same properties, of the same classes, in the same
    order. *)
Theorem editors_independent_of_enumeration
    (parse_macro_string : pyval -> result (list (string * string))) w1 w2 :
  class_attributes (widget_type (widget w1))
    = class_attributes (widget_type (widget w2)) ->
  staticMetaObject (widget_type (widget w1))
    ≡ₚ staticMetaObject (widget_type (widget w2)) ->
  exists self1 w1' self2 w2',
    __init__ parse_macro_string w1 = (Ok self1, w1') /\
    __init__ parse_macro_string w2 = (Ok self2, w2') /\
    editor_names self1 = editor_names self2 /\
    helper_classes self1 = helper_classes self2.
Proof.
  intros Hattrs Hperm.
  destruct (init_ok parse_macro_string w1) as (self1 & l1 & Hinit1 & _ & Hmap1).
  destruct (init_ok parse_macro_string w2) as (self2 & l2 & Hinit2 & _ & Hmap2).
  eexists self1, _, self2, _. split; [exact Hinit1|]. split; [exact Hinit2|].
  assert (map (fun h => (_property_name h, class_of (helper_control h)))
              (property_widgets self1)
          = map (fun h => (_property_name h, class_of (helper_control h)))
                (property_widgets self2)) as Hsame.
  { rewrite Hmap1, Hmap2, (loop_attrs_Permutation _ _ Hperm).
    apply omap_pointwise. intros a.
    by rewrite (helper_cls_for_attributes _ _ a Hattrs). }
  split.
  - apply (f_equal (map fst)) in Hsame. by rewrite !map_map in Hsame.
  - apply (f_equal (map snd)) in Hsame. by rewrite !map_map in Hsame.
Qed.

Lemma editors_independent_of_enumeration_witness :
  let reversed :=
    with_meta_object (reverse (staticMetaObject zeta_class)) zeta_class in
  staticMetaObject reversed
    = [designable "macros"; designable "alpha"; designable "channel";
       designable "zeta"] /\
  exists self1 w1' self2 w2',
    __init__ sample_parse_macro_string (world_of (plain_widget zeta_class ∅))
      = (Ok self1, w1') /\
    __init__ sample_parse_macro_string (world_of (plain_widget reversed ∅))
      = (Ok self2, w2') /\
    editor_names self1 = editor_names self2 /\
    helper_classes self1 = helper_classes self2.
Proof.
  intros reversed. split; [reflexivity|].
  apply (editors_independent_of_enumeration sample_parse_macro_string
           (world_of (plain_widget zeta_class ∅))
           (world_of (plain_widget reversed ∅))).
  - reflexivity.
  - simpl. symmetry. apply reverse_Permutation.
Defined.

Lemma create_helpers_none
    (parse_macro_string : pyval -> result (list (string * string)))
    cls attrs w :
  Forall (fun attr => helper_cls_for cls attr = None) attrs ->
  create_helpers parse_macro_string cls attrs w = (Ok [], w).
Proof.
  induction 1 as [|attr attrs Hattr _ IH]; simpl; [done|]. by rewrite Hattr.
Qed.

(** X23. When no name the loop goes through gets a helper class (the
    class of the target has none of them as an attribute, or none has a
    type of the type table), the dialog opens with no editors and no
    form rows, and nothing is read from the target or logged. *)
Theorem dialog_without_editors
    (parse_macro_string : pyval -> result (list (string * string))) w :
  Forall (fun attr => helper_cls_for (widget_type (widget w)) attr = None)
         (loop_attrs (widget_type (widget w))) ->
  __init__ parse_macro_string w
    = (Ok {| property_widgets := []; settings_form := []; state := Open |}, w).
Proof.
  intros Hnone. unfold __init__, _create_helper_widgets, the_widget.
  unfold bind at 1. unfold bind at 1.
  by rewrite (create_helpers_none parse_macro_string _ _ w Hnone).
Qed.

Lemma dialog_without_editors_witness :
  let cls :=
    {| staticMetaObject := [designable "enabled"; designable "geometry"];
       class_attributes := {[ "geometry" := {| attr_type := None |} ]} |} in
  let w := world_of (plain_widget cls ∅) in
  __init__ sample_parse_macro_string w
    = (Ok {| property_widgets := []; settings_form := []; state := Open |}, w).
Proof.
  intros cls w.
  apply (dialog_without_editors sample_parse_macro_string w).
  apply (bool_decide_unpack _). by vm_compute.
Defined.

(** ** The macro table, loaded and saved back *)

(** X24. A macro-table helper opened on a property and saved without an
    edit writes the serialization of the parsed mapping with its keys
    trimmed.  When the macro string does not parse, the failure is
    logged and Save writes the serialization of the empty mapping over
    it. *)
Theorem macro_table_load_save
    (parse_macro_string : pyval -> result (list (string * string)))
    (json_dumps : list (string * string) -> string) property_name w :
  getattr_raises (widget w) property_name = None ->
  let value := default (Atom PyNone) (attributes (widget w) !! property_name) in
  let run :=
    (helper <- new_helper parse_macro_string PropertyMacroTable property_name ;;
     save_settings json_dumps helper) w in
  (forall macros,
     parse_macro_string (py_or value (PyStr "")) = Ok macros ->
     let saved :=
       PyStr (json_dumps (dict_of_pairs (map (fun kv => (Py.strip kv.1, kv.2)) macros))) in
     write_raises (widget w) property_name saved = None ->
     run = (Ok tt,
            {| widget := set_attribute property_name saved (widget w);
               log := log w ++ [Updating (objectName (widget w)) property_name saved] |})) /\
  (forall e,
     parse_macro_string (py_or value (PyStr "")) = Raise e ->
     let saved := PyStr (json_dumps []) in
     write_raises (widget w) property_name saved = None ->
     run = (Ok tt,
            {| widget := set_attribute property_name saved (widget w);
               log := log w ++ [FailedToParse value;
                                Updating (objectName (widget w)) property_name saved] |})).
Proof.
  intros Hread value run. subst run. split.
  - intros macros Hparse. cbv zeta. intros Hwrite.
    unfold new_helper, save_settings, update_property_for_widget, write_raises in *.
    unfold_monad. rewrite Hread. fold value. rewrite Hparse. simpl.
    unfold saved_value. simpl.
    destruct (dictionary_installed macros (DictionaryTable.__init__ None) eq_refl)
      as [_ Hdict].
    rewrite Hdict.
    destruct (formWindow (widget w)); simpl in *; by rewrite Hwrite.
  - intros e Hparse. cbv zeta. intros Hwrite.
    unfold new_helper, save_settings, update_property_for_widget, write_raises in *.
    unfold_monad. rewrite Hread. fold value. rewrite Hparse. unfold_monad.
    unfold saved_value. simpl.
    change (DictionaryTable.dictionary (DictionaryTable.__init__ None))
      with (@nil (string * string)).
    destruct (formWindow (widget w)); simpl in *; rewrite Hwrite;
      by rewrite <- app_assoc.
Qed.

Lemma macro_table_load_save_witness :
  let w := world_of unreadable_channel in
  attributes (widget w) !! "macros" = Some (Atom (PyStr "A=1")) /\
  (helper <- new_helper sample_parse_macro_string PropertyMacroTable "macros" ;;
   save_settings sample_json_dumps helper) w
  = (Ok tt,
     {| widget := set_attribute "macros" (PyStr "") unreadable_channel;
        log := [FailedToParse (PyStr "A=1"); Updating "widget" "macros" (PyStr "")] |}).
Proof.
  intros w. split; [reflexivity|].
  exact (proj2 (macro_table_load_save sample_parse_macro_string sample_json_dumps
                  "macros" w eq_refl) ValueError eq_refl eq_refl).
Defined.
